(** * Supply-chain dashboard: filtering, KPIs and grouped aggregates

    A shallow embedding of [app.py], the single script of the dashboard.
    The script is a pandas program: it reads columns by name, builds
    boolean masks column-wise, assigns derived columns to a private copy of
    its argument and groups by one key column.  The embedding keeps that
    shape: a store of table objects, a state-and-exception monad for the
    script, column operations on lists, and the rendered outputs as a trace.

    Conventions of the model:
    - amounts are exact rationals ([Qc]) in the tables of the model; what
      the script computes from them in machine numbers is followed apart,
      in binary64, for the sums whose rounding a statement depends on
      (module [Binary64]);
    - a [Timestamp] is an instant counted in nanoseconds since the epoch,
      a [Date] a calendar day counted in days since the epoch;
    - missing cells (NaN in a source column) are outside the model; NaN
      and NaT as results of an aggregate over nothing are [None]. *)

From Stdlib Require Import QArith Qcanon Floats.
From stdpp Require Import base list strings sorting numbers.

Local Open Scope Z_scope.

(** ** Calendar time *)

Definition Timestamp := Z.
Definition Date := Z.

Definition NS_PER_DAY : Z := 86400000000000.

(** [Timestamp.date()]: the calendar day an instant falls on. *)
Definition date_of (t : Timestamp) : Date := t `div` NS_PER_DAY.

(** [pd.to_datetime(d)] on a date: midnight at the start of that day. *)
Definition to_datetime (d : Date) : Timestamp := d * NS_PER_DAY.

(** [Timedelta.days]: whole days, rounding towards minus infinity. *)
Definition days_of (delta : Z) : Z := delta `div` NS_PER_DAY.

(** ** Tables *)

(** A column (a pandas Series) with its dtype. *)
Inductive Col :=
| CStr (l : list string)          (* object dtype holding text *)
| CInt (l : list Z)               (* int64 *)
| CNum (l : list Qc)              (* float64 without NaN *)
| CFloat (l : list (option Qc))   (* float64, [None] is NaN *)
| CTs (l : list Timestamp)        (* datetime64[ns] *)
| CDelta (l : list Z)             (* timedelta64[ns] *)
| CBool (l : list bool).

(** A table (a pandas DataFrame): the labels of its rows and its columns
    by name, in the order they were added. *)
Record Frame := {
  index : list nat;
  columns : list (string * Col)
}.

Fixpoint assoc {A} (name : string) (l : list (string * A)) : option A :=
  match l with
  | [] => None
  | (n, x) :: l' => if String.eqb name n then Some x else assoc name l'
  end.

(** Replace the entry of [name] where it stands, or append a new one. *)
Fixpoint assoc_set {A} (name : string) (x : A) (l : list (string * A))
  : list (string * A) :=
  match l with
  | [] => [(name, x)]
  | (n, y) :: l' =>
      if String.eqb name n then (n, x) :: l' else (n, y) :: assoc_set name x l'
  end.

(** [df[name] = c] as a value. *)
Definition frame_set (name : string) (c : Col) (fr : Frame) : Frame :=
  {| index := index fr; columns := assoc_set name c (columns fr) |}.

(** Keep the entries of [l] whose mask bit is set. *)
Fixpoint select {A} (mask : list bool) (l : list A) : list A :=
  match mask, l with
  | b :: mask', x :: l' => if b then x :: select mask' l' else select mask' l'
  | _, _ => []
  end.

(** The same choice of positions in a column of any dtype. *)
Definition col_pick (f : ∀ A, list A → list A) (c : Col) : Col :=
  match c with
  | CStr l => CStr (f _ l)
  | CInt l => CInt (f _ l)
  | CNum l => CNum (f _ l)
  | CFloat l => CFloat (f _ l)
  | CTs l => CTs (f _ l)
  | CDelta l => CDelta (f _ l)
  | CBool l => CBool (f _ l)
  end.

Definition frame_pick (f : ∀ A, list A → list A) (fr : Frame) : Frame :=
  {| index := f _ (index fr);
     columns := prod_map id (col_pick f) <$> columns fr |}.

(** The table as the rest of the development sees a well-formed upload:
    one record per order, with the twelve columns the script reads. *)
Record Row := {
  order_id : string;
  order_date : Timestamp;
  ship_date : Timestamp;
  delivery_date : Timestamp;
  units_sold : Z;
  unit_price : Qc;
  shipping_cost : Qc;
  fulfillment_cost : Qc;
  delivery_status : string;
  region : string;
  warehouse_id : string;
  product_category : string
}.

Definition source_columns (rs : list Row) : list (string * Col) :=
  [ ("order_id", CStr (order_id <$> rs));
    ("order_date", CTs (order_date <$> rs));
    ("ship_date", CTs (ship_date <$> rs));
    ("delivery_date", CTs (delivery_date <$> rs));
    ("units_sold", CInt (units_sold <$> rs));
    ("unit_price", CNum (unit_price <$> rs));
    ("shipping_cost", CNum (shipping_cost <$> rs));
    ("fulfillment_cost", CNum (fulfillment_cost <$> rs));
    ("delivery_status", CStr (delivery_status <$> rs));
    ("region", CStr (region <$> rs));
    ("warehouse_id", CStr (warehouse_id <$> rs));
    ("product_category", CStr (product_category <$> rs)) ].

(** The table object holding the orders [rs] under the row labels [idx]. *)
Definition frame_of (idx : list nat) (rs : list Row) : Frame :=
  {| index := idx; columns := source_columns rs |}.

(** ** Exceptions, outputs and the store *)

Inductive Exn :=
| KeyError (name : string)     (* no such column *)
| ValueError (msg : string)
| ReferenceError               (* a reference that is not in the store *)
| Unmodelled (op : string).    (* an operation on a column of a dtype the
                                  model does not follow pandas on *)

(** What a metric tile shows, before formatting. *)
Inductive Metric :=
| MCount (n : nat)
| MValue (x : option Qc).

(** An aggregate table handed to the chart renderer: its columns by name,
    the group key first. *)
Definition Table := list (string * Col).

(** The outputs the script sends to the page, titles and layout apart. *)
Inductive Event :=
| EvInfo
| EvDataframe (preview : Frame)
| EvMultiselect (label : string) (options : Col)
| EvDateInput (label : string) (min_date max_date : option Date)
| EvFilteredRows (n : nat)
| EvWarning
| EvMetric (label : string) (value : Metric)
| EvChart (title : string) (data : Table) (x : string) (y : list string).

(** Table objects live in a store and are named by their position in it:
    two names for one position are two names for one object. *)
Definition ref := nat.

Record State := {
  heap : list Frame;
  out : list Event
}.

Definition Script (A : Type) : Type := State → (Exn + A) * State.

Global Instance Script_ret : MRet Script := λ A x s, (inr x, s).
Global Instance Script_bind : MBind Script := λ A B f m s,
  match m s with
  | (inl e, s') => (inl e, s')
  | (inr x, s') => f x s'
  end.
Global Instance Script_fmap : FMap Script := λ A B f m, x ← m; mret (f x).

Definition raise {A} (e : Exn) : Script A := λ s, (inl e, s).

Definition emit (ev : Event) : Script unit :=
  λ s, (inr (), {| heap := heap s; out := out s ++ [ev] |}).

Definition alloc (fr : Frame) : Script ref :=
  λ s, (inr (length (heap s)), {| heap := heap s ++ [fr]; out := out s |}).

Definition deref (df : ref) : Script Frame :=
  λ s, match heap s !! df with
       | Some fr => (inr fr, s)
       | None => (inl ReferenceError, s)
       end.

Definition store (df : ref) (fr : Frame) : Script unit :=
  λ s, (inr (), {| heap := <[df := fr]> (heap s); out := out s |}).

(** [df.copy()]: a new object with the same contents. *)
Definition copy (df : ref) : Script ref :=
  fr ← deref df; alloc fr.

(** [df[name]] *)
Definition getitem (df : ref) (name : string) : Script Col :=
  fr ← deref df;
  match assoc name (columns fr) with
  | Some c => mret c
  | None => raise (KeyError name)
  end.

(** [df[name] = c]: changes the object [df] names. *)
Definition setitem (df : ref) (name : string) (c : Col) : Script unit :=
  fr ← deref df; store df (frame_set name c fr).

(** [df.assign(name=c)]: a new object, [df] with the column added. *)
Definition assign (df : ref) (name : string) (c : Col) : Script ref :=
  fr ← deref df; alloc (frame_set name c fr).

(** [len(df)] *)
Definition len (df : ref) : Script nat :=
  fr ← deref df; mret (length (index fr)).

(** [df.head()]: a new object with the first five rows. *)
Definition head (df : ref) : Script ref :=
  fr ← deref df; alloc (frame_pick (λ A, take 5) fr).

(** [df.loc[mask]]: a new object with the rows whose mask bit is set. *)
Definition loc (df : ref) (mask : Col) : Script ref :=
  fr ← deref df;
  match mask with
  | CBool m => alloc (frame_pick (λ A, select m) fr)
  | _ => raise (Unmodelled ".loc")
  end.

(** ** Column operations *)

Definition sum_Qc (l : list Qc) : Qc := foldr Qcplus 0%Qc l.

(** The mean of a column; of no value at all it is NaN. *)
Definition mean (l : list Qc) : option Qc :=
  match l with
  | [] => None
  | _ => Some (sum_Qc l / Qc_of_Z (Z.of_nat (length l)))%Qc
  end.

Definition bool_Qc (b : bool) : Qc := if b then 1%Qc else 0%Qc.

(** The numbers of a numeric or boolean column. *)
Definition as_num (op : string) (c : Col) : Script (list Qc) :=
  match c with
  | CInt l => mret (Qc_of_Z <$> l)
  | CNum l => mret l
  | CBool l => mret (bool_Qc <$> l)
  | _ => raise (Unmodelled op)
  end.

Definition col_mul (a b : Col) : Script Col :=
  x ← as_num "*" a; y ← as_num "*" b; mret (CNum (zip_with Qcmult x y)).

Definition col_add (a b : Col) : Script Col :=
  x ← as_num "+" a; y ← as_num "+" b; mret (CNum (zip_with Qcplus x y)).

(** [a - b]: numbers give numbers, instants give durations. *)
Definition col_sub (a b : Col) : Script Col :=
  match a, b with
  | CTs x, CTs y => mret (CDelta (zip_with Z.sub x y))
  | _, _ => x ← as_num "-" a; y ← as_num "-" b; mret (CNum (zip_with Qcminus x y))
  end.

(** [.dt.days] *)
Definition dt_days (c : Col) : Script Col :=
  match c with
  | CDelta l => mret (CInt (days_of <$> l))
  | _ => raise (Unmodelled ".dt.days")
  end.

(** [.sum()] and [.mean()] *)
Definition col_sum (c : Col) : Script Qc := x ← as_num "sum" c; mret (sum_Qc x).
Definition col_mean (c : Col) : Script (option Qc) := x ← as_num "mean" c; mret (mean x).

(** One bit per entry of a text column, set where [P] accepts the entry. *)
Definition col_test (op : string) (P : string → bool) (c : Col) : Script Col :=
  match c with
  | CStr l => mret (CBool (P <$> l))
  | _ => raise (Unmodelled op)
  end.

Definition text_eqb (s x : string) : bool := String.eqb s x.

(** [.eq(s)] *)
Definition col_eq (s : string) (c : Col) : Script Col :=
  col_test ".eq" (text_eqb s) c.

(** [.isin(values)] *)
Definition isin (values : list string) (c : Col) : Script Col :=
  col_test ".isin" (λ x, bool_decide (x ∈ values)) c.

(** [a & b] on boolean columns. *)
Definition col_and (a b : Col) : Script Col :=
  match a, b with
  | CBool x, CBool y => mret (CBool (zip_with andb x y))
  | _, _ => raise (Unmodelled "&")
  end.

(** [x >= t] and [x <= t] between instants; against NaT nothing holds. *)
Definition ts_ge (t : option Timestamp) (x : Timestamp) : bool :=
  match t with Some t => bool_decide (t ≤ x) | None => false end.

Definition ts_le (t : option Timestamp) (x : Timestamp) : bool :=
  match t with Some t => bool_decide (x ≤ t) | None => false end.

(** [c >= t] and [c <= t] on a column of instants. *)
Definition col_ge (c : Col) (t : option Timestamp) : Script Col :=
  match c with
  | CTs l => mret (CBool (ts_ge t <$> l))
  | _ => raise (Unmodelled ">=")
  end.

Definition col_le (c : Col) (t : option Timestamp) : Script Col :=
  match c with
  | CTs l => mret (CBool (ts_le t <$> l))
  | _ => raise (Unmodelled "<=")
  end.

Definition list_min (l : list Z) : option Z :=
  match l with
  | [] => None
  | x :: l' => Some (foldr Z.min x l')
  end.

Definition list_max (l : list Z) : option Z :=
  match l with
  | [] => None
  | x :: l' => Some (foldr Z.max x l')
  end.

(** [.min().date()] and [.max().date()]; of an empty column they are NaT. *)
Definition min_date_of (c : Col) : Script (option Date) :=
  match c with
  | CTs l => mret (date_of <$> list_min l)
  | _ => raise (Unmodelled ".min().date()")
  end.

Definition max_date_of (c : Col) : Script (option Date) :=
  match c with
  | CTs l => mret (date_of <$> list_max l)
  | _ => raise (Unmodelled ".max().date()")
  end.

(** [.unique()]: the distinct entries in order of first appearance. *)
Fixpoint unique `{EqDecision A} (l : list A) : list A :=
  match l with
  | [] => []
  | x :: l' => x :: filter (λ y, y ≠ x) (unique l')
  end.

(** The distinct entries in ascending order: [sorted(c.unique())], and the
    group keys of [groupby], which sorts them. *)
Definition sorted_unique `{EqDecision A} (R : relation A)
    `{∀ x y, Decision (R x y)} (l : list A) : list A :=
  merge_sort R (unique l).

Definition bool_le (a b : bool) : Prop := implb a b.

Definition col_sorted_unique (c : Col) : Script Col :=
  match c with
  | CStr l => mret (CStr (sorted_unique String.le l))
  | CInt l => mret (CInt (sorted_unique Z.le l))
  | CNum l => mret (CNum (sorted_unique Qcle l))
  | CTs l => mret (CTs (sorted_unique Z.le l))
  | CDelta l => mret (CDelta (sorted_unique Z.le l))
  | CBool l => mret (CBool (sorted_unique bool_le l))
  | CFloat _ => raise (Unmodelled "sorted")
  end.

(** ** The sidebar: filter criteria and the filter *)

(** What the date widget returns: one date, or a tuple of dates. *)
Inductive DateInput :=
| OneDate (d : Date)
| DateTuple (ds : list Date).

(** The selections of the user in the four sidebar widgets. *)
Record Widgets := {
  sel_regions : list string;
  sel_warehouses : list string;
  sel_categories : list string;
  sel_dates : DateInput
}.

Definition multiselect (label : string) (options default : Col)
    (chosen : list string) : Script (list string) :=
  emit (EvMultiselect label options);; mret chosen.

Definition date_input (label : string) (value : option Date * option Date)
    (chosen : DateInput) : Script DateInput :=
  emit (EvDateInput label value.1 value.2);; mret chosen.

(** The normalisation of what the date widget returned: a pair of dates
    is the range, one date is both ends, and any other tuple gives way to
    the span of the table. *)
Definition normalize_date_range (min_date max_date : option Date)
    (date_range : DateInput) : option Date * option Date :=
  match date_range with
  | DateTuple [s; e] => (Some s, Some e)
  | DateTuple [d] => (Some d, Some d)
  | DateTuple _ => (min_date, max_date)
  | OneDate d => (Some d, Some d)
  end.

Definition sidebar_filters (df : ref) (w : Widgets) : Script ref :=
  options ← getitem df "region" ≫= col_sorted_unique;
  default ← getitem df "region" ≫= col_sorted_unique;
  regions ← multiselect "Region" options default (sel_regions w);
  options ← getitem df "warehouse_id" ≫= col_sorted_unique;
  default ← getitem df "warehouse_id" ≫= col_sorted_unique;
  warehouses ← multiselect "Warehouse" options default (sel_warehouses w);
  options ← getitem df "product_category" ≫= col_sorted_unique;
  default ← getitem df "product_category" ≫= col_sorted_unique;
  categories ← multiselect "Product Category" options default (sel_categories w);
  min_date ← getitem df "order_date" ≫= min_date_of;
  max_date ← getitem df "order_date" ≫= max_date_of;
  date_range ← date_input "Order Date Range" (min_date, max_date) (sel_dates w);
  let range := normalize_date_range min_date max_date date_range in
  let start_ts := to_datetime <$> range.1 in
  let end_ts := to_datetime <$> range.2 in
  m_region ← getitem df "region" ≫= isin regions;
  m_warehouse ← getitem df "warehouse_id" ≫= isin warehouses;
  mask ← col_and m_region m_warehouse;
  m_category ← getitem df "product_category" ≫= isin categories;
  mask ← col_and mask m_category;
  m_start ← getitem df "order_date" ≫= (λ c, col_ge c start_ts);
  mask ← col_and mask m_start;
  m_end ← getitem df "order_date" ≫= (λ c, col_le c end_ts);
  mask ← col_and mask m_end;
  loc df mask ≫= copy.

(** ** Derived columns and the KPI tiles *)

(** [100 * (1 - m)], the on-time rate for a late share [m]. *)
Definition on_time (m : Qc) : Qc := (Qc_of_Z 100 * (1 - m))%Qc.

Definition kpi_section (df : ref) : Script unit :=
  df ← copy df;
  a ← getitem df "units_sold"; b ← getitem df "unit_price";
  v ← col_mul a b; setitem df "order_value" v;;
  a ← getitem df "shipping_cost"; b ← getitem df "fulfillment_cost";
  v ← col_add a b; setitem df "total_cost" v;;
  a ← getitem df "order_value"; b ← getitem df "total_cost";
  v ← col_sub a b; setitem df "profit" v;;
  a ← getitem df "delivery_date"; b ← getitem df "ship_date";
  v ← col_sub a b ≫= dt_days; setitem df "delivery_days" v;;
  v ← getitem df "delivery_status" ≫= col_eq "Late"; setitem df "is_late" v;;
  total_orders ← len df;
  total_revenue ← getitem df "order_value" ≫= col_sum;
  total_profit ← getitem df "profit" ≫= col_sum;
  late ← getitem df "is_late" ≫= col_mean;
  let on_time_rate := on_time <$> late in
  avg_delivery_days ← getitem df "delivery_days" ≫= col_mean;
  avg_fulfillment_cost ← getitem df "fulfillment_cost" ≫= col_mean;
  emit (EvMetric "Total Orders" (MCount total_orders));;
  emit (EvMetric "Total Revenue" (MValue (Some total_revenue)));;
  emit (EvMetric "Total Profit" (MValue (Some total_profit)));;
  emit (EvMetric "On-Time Delivery Rate" (MValue on_time_rate));;
  emit (EvMetric "Avg Delivery Time (days)" (MValue avg_delivery_days));;
  emit (EvMetric "Avg Fulfillment Cost / Order" (MValue avg_fulfillment_cost)).

(** ** Grouped aggregates and the charts *)

(** The entries of [vals] in the rows whose key is [k], in table order. *)
Definition group_of `{EqDecision K} {V} (k : K) (keys : list K) (vals : list V)
  : list V :=
  (filter (λ kv, kv.1 = k) (zip keys vals)).*2.

(** A grouping of a table by one column: the group keys, each once and in
    ascending order, and how a column of the table splits into the groups. *)
Record GroupBy := {
  gkeys : Col;
  gsplit : ∀ V, list V → list (list V)
}.

Definition group_by `{EqDecision K} (R : relation K) `{∀ x y, Decision (R x y)}
    (wrap : list K → Col) (keys : list K) : GroupBy :=
  {| gkeys := wrap (sorted_unique R keys);
     gsplit V vals := (λ k, group_of k keys vals) <$> sorted_unique R keys |}.

(** [df.groupby(key)] *)
Definition groupby (df : ref) (key : string) : Script GroupBy :=
  c ← getitem df key;
  match c with
  | CStr l => mret (group_by String.le CStr l)
  | CInt l => mret (group_by Z.le CInt l)
  | CNum l => mret (group_by Qcle CNum l)
  | CTs l => mret (group_by Z.le CTs l)
  | CDelta l => mret (group_by Z.le CDelta l)
  | CBool l => mret (group_by bool_le CBool l)
  | CFloat _ => raise (Unmodelled "groupby")
  end.

(** The groups of a column, each a column of the same dtype. *)
Definition col_groups (g : GroupBy) (c : Col) : list Col :=
  match c with
  | CStr l => CStr <$> gsplit g _ l
  | CInt l => CInt <$> gsplit g _ l
  | CNum l => CNum <$> gsplit g _ l
  | CFloat l => CFloat <$> gsplit g _ l
  | CTs l => CTs <$> gsplit g _ l
  | CDelta l => CDelta <$> gsplit g _ l
  | CBool l => CBool <$> gsplit g _ l
  end.

Definition col_length (c : Col) : nat :=
  match c with
  | CStr l => length l
  | CInt l => length l
  | CNum l => length l
  | CFloat l => length l
  | CTs l => length l
  | CDelta l => length l
  | CBool l => length l
  end.

(** The aggregations [(column, "count")], [(column, "sum")],
    [(column, "mean")] and [(column, f)] of [.agg]. *)
Definition agg_count (g : GroupBy) (df : ref) (column : string) : Script Col :=
  c ← getitem df column;
  mret (CInt ((λ x, Z.of_nat (col_length x)) <$> col_groups g c)).

Definition agg_sum (g : GroupBy) (df : ref) (column : string) : Script Col :=
  c ← getitem df column;
  CNum <$> mapM col_sum (col_groups g c).

Definition agg_mean (g : GroupBy) (df : ref) (column : string) : Script Col :=
  c ← getitem df column;
  CFloat <$> mapM col_mean (col_groups g c).

Definition agg_apply (g : GroupBy) (df : ref) (column : string)
    (f : Col → Script (option Qc)) : Script Col :=
  c ← getitem df column;
  CFloat <$> mapM f (col_groups g c).

Definition charts_section (df : ref) : Script unit :=
  df ← copy df;
  a ← getitem df "units_sold"; b ← getitem df "unit_price";
  v ← col_mul a b; setitem df "order_value" v;;
  a ← getitem df "delivery_date"; b ← getitem df "ship_date";
  v ← col_sub a b ≫= dt_days; setitem df "delivery_days" v;;
  g ← groupby df "order_date";
  orders ← agg_count g df "order_id";
  revenue ← agg_sum g df "order_value";
  let orders_by_date :=
    [("order_date", gkeys g); ("orders", orders); ("revenue", revenue)] in
  emit (EvChart "Orders Over Time" orders_by_date "order_date" ["orders"]);;
  emit (EvChart "Revenue Over Time" orders_by_date "order_date" ["revenue"]);;
  g ← groupby df "region";
  revenue ← agg_sum g df "order_value";
  let revenue_by_region := [("region", gkeys g); ("revenue", revenue)] in
  emit (EvChart "Revenue by Region" revenue_by_region "region" ["revenue"]);;
  is_late ← getitem df "delivery_status" ≫= col_eq "Late";
  with_late ← assign df "is_late" is_late;
  g ← groupby with_late "warehouse_id";
  on_time_rate ← agg_apply g with_late "is_late"
                   (λ x, m ← col_mean x; mret (on_time <$> m));
  let ontime_by_wh := [("warehouse_id", gkeys g); ("on_time_rate", on_time_rate)] in
  emit (EvChart "On-Time Delivery Rate by Warehouse" ontime_by_wh
          "warehouse_id" ["on_time_rate"]);;
  a ← getitem df "shipping_cost"; b ← getitem df "fulfillment_cost";
  v ← col_add a b; setitem df "total_cost" v;;
  a ← getitem df "order_value"; b ← getitem df "total_cost";
  v ← col_sub a b; setitem df "profit" v;;
  g ← groupby df "product_category";
  revenue ← agg_sum g df "order_value";
  profit ← agg_sum g df "profit";
  avg_delivery_days ← agg_mean g df "delivery_days";
  let perf_by_cat :=
    [("product_category", gkeys g); ("revenue", revenue); ("profit", profit);
     ("avg_delivery_days", avg_delivery_days)] in
  emit (EvChart "Revenue vs Profit by Product Category" perf_by_cat
          "product_category" ["revenue"; "profit"]);;
  emit (EvChart "Average Delivery Time by Product Category (days)" perf_by_cat
          "product_category" ["avg_delivery_days"]).

(** ** The loader and the script *)

(** An uploaded file as the CSV reader tokenises it, before the date
    conversion: the number of records and, for each name of the header
    row, its column (whole numbers, decimal numbers, or text; every
    column has one entry per record). *)
Record Csv := {
  records : nat;
  fields : list (string * Col)
}.

(** The [parse_dates] argument of the script's [read_csv] call. *)
Definition parse_dates : list string := ["order_date"; "ship_date"; "delivery_date"].

Definition has_column {A} (name : string) (l : list (string * A)) : bool :=
  match assoc name l with Some _ => true | None => false end.

(** The part of the script that runs once a table is loaded: the preview,
    the sidebar, the row count, and then either the warning or the KPI
    tiles and the charts. *)
Definition dashboard (df : ref) (w : Widgets) : Script unit :=
  preview ← head df ≫= deref;
  emit (EvDataframe preview);;
  filtered_df ← sidebar_filters df w;
  n ← len filtered_df;
  emit (EvFilteredRows n);;
  n ← len filtered_df;
  if bool_decide (n = 0%nat) then emit EvWarning
  else kpi_section filtered_df;; charts_section filtered_df.

Section Loader.
(** The date parser of the CSV reader: the instant a text denotes, if it
    denotes one. *)
Variable parse_datetime : string → option Timestamp.

(** A column named in [parse_dates] becomes a column of instants when
    every entry parses; with an entry that does not, the reader returns
    the column as it is. *)
Definition convert_dates (c : Col) : Script Col :=
  match c with
  | CStr l =>
      match mapM parse_datetime l with
      | Some ts => mret (CTs ts)
      | None => mret (CStr l)
      end
  | _ => raise (Unmodelled "parse_dates")
  end.

Definition convert_field (f : string * Col) : Script (string * Col) :=
  if bool_decide (f.1 ∈ parse_dates)
  then c ← convert_dates f.2; mret (f.1, c)
  else mret f.

(** [pd.read_csv(file, parse_dates=[...])] *)
Definition load_data (file : Csv) : Script ref :=
  if forallb (λ name, has_column name (fields file)) parse_dates then
    match records file with
    | O => raise (Unmodelled "read_csv of a file without records")
    | _ =>
        cols ← mapM convert_field (fields file);
        alloc {| index := seq 0 (records file); columns := cols |}
    end
  else raise (ValueError "Missing column provided to 'parse_dates'").

Definition main (uploaded_file : option Csv) (w : Widgets) : Script unit :=
  match uploaded_file with
  | None => emit EvInfo
  | Some file => df ← load_data file; dashboard df w
  end.
End Loader.

(** ** The table by rows

    The script works column by column.  The statements below read better
    order by order: the derived fields of one order, the criteria the
    sidebar arrives at, and the predicates a row is tested against. *)

Definition order_value (r : Row) : Qc := (Qc_of_Z (units_sold r) * unit_price r)%Qc.
Definition total_cost (r : Row) : Qc := (shipping_cost r + fulfillment_cost r)%Qc.
Definition profit (r : Row) : Qc := (order_value r - total_cost r)%Qc.
Definition delivery_days (r : Row) : Z := days_of (delivery_date r - ship_date r).
Definition is_late (r : Row) : bool := text_eqb "Late" (delivery_status r).

(** The on-time rate of a population of orders; of nobody it is NaN. *)
Definition on_time_rate (rs : list Row) : option Qc :=
  on_time <$> mean (bool_Qc <$> (is_late <$> rs)).

(** The days of the earliest and of the latest order. *)
Definition table_span (T : list Row) : option Date * option Date :=
  (date_of <$> list_min (order_date <$> T), date_of <$> list_max (order_date <$> T)).

Record Criteria := {
  regions : list string;
  warehouses : list string;
  categories : list string;
  start_ts : option Timestamp;
  end_ts : option Timestamp
}.

(** The criteria the sidebar applies to the table [T] for the selections
    [w]. *)
Definition criteria (T : list Row) (w : Widgets) : Criteria :=
  let range := normalize_date_range (table_span T).1 (table_span T).2 (sel_dates w) in
  {| regions := sel_regions w;
     warehouses := sel_warehouses w;
     categories := sel_categories w;
     start_ts := to_datetime <$> range.1;
     end_ts := to_datetime <$> range.2 |}.

Inductive Predicate := ByRegion | ByWarehouse | ByCategory | ByDate.

Definition all_predicates : list Predicate := [ByRegion; ByWarehouse; ByCategory; ByDate].

Global Instance Predicate_eq_dec : EqDecision Predicate.
Proof. solve_decision. Defined.

(** [start ≤ x ≤ end], which no instant satisfies when an end is NaT. *)
Definition in_range (C : Criteria) (x : Timestamp) : Prop :=
  match start_ts C, end_ts C with
  | Some s, Some e => s ≤ x ≤ e
  | _, _ => False
  end.

Definition holds (C : Criteria) (q : Predicate) (r : Row) : Prop :=
  match q with
  | ByRegion => region r ∈ regions C
  | ByWarehouse => warehouse_id r ∈ warehouses C
  | ByCategory => product_category r ∈ categories C
  | ByDate => in_range C (order_date r)
  end.

Global Instance in_range_dec C x : Decision (in_range C x).
Proof. unfold in_range. destruct (start_ts C), (end_ts C); apply _. Defined.

Global Instance holds_dec C q r : Decision (holds C q r).
Proof. destruct q; simpl; apply _. Defined.

(** The row passes every predicate of [qs]. *)
Definition satisfies (C : Criteria) (qs : list Predicate) (r : Row) : Prop :=
  Forall (λ q, holds C q r) qs.

(** The mask bit the script computes for a row. *)
Definition row_mask (C : Criteria) (r : Row) : bool :=
  bool_decide (region r ∈ regions C)
  && bool_decide (warehouse_id r ∈ warehouses C)
  && bool_decide (product_category r ∈ categories C)
  && ts_ge (start_ts C) (order_date r)
  && ts_le (end_ts C) (order_date r).

(** What the sidebar shows for the table [T]. *)
Definition sidebar_widgets (T : list Row) : list Event :=
  [ EvMultiselect "Region" (CStr (sorted_unique String.le (region <$> T)));
    EvMultiselect "Warehouse" (CStr (sorted_unique String.le (warehouse_id <$> T)));
    EvMultiselect "Product Category"
      (CStr (sorted_unique String.le (product_category <$> T)));
    EvDateInput "Order Date Range" (table_span T).1 (table_span T).2 ].

(** The six tiles for a table with [n] row labels holding the orders [T]. *)
Definition kpi_tiles (n : nat) (T : list Row) : list Event :=
  [ EvMetric "Total Orders" (MCount n);
    EvMetric "Total Revenue" (MValue (Some (sum_Qc (order_value <$> T))));
    EvMetric "Total Profit" (MValue (Some (sum_Qc (profit <$> T))));
    EvMetric "On-Time Delivery Rate" (MValue (on_time_rate T));
    EvMetric "Avg Delivery Time (days)"
      (MValue (mean (Qc_of_Z <$> (delivery_days <$> T))));
    EvMetric "Avg Fulfillment Cost / Order" (MValue (mean (fulfillment_cost <$> T))) ].

(** The private copy the KPI stage ends with. *)
Definition kpi_frame (idx : list nat) (T : list Row) : Frame :=
  {| index := idx;
     columns := source_columns T ++
       [ ("order_value", CNum (order_value <$> T));
         ("total_cost", CNum (total_cost <$> T));
         ("profit", CNum (profit <$> T));
         ("delivery_days", CInt (delivery_days <$> T));
         ("is_late", CBool (is_late <$> T)) ] |}.

(** One aggregate per group of the table split by [key]: the groups in
    ascending key order, [agg] over the values [val] of the rows of each. *)
Definition grouped `{EqDecision K} (R : relation K) `{∀ x y, Decision (R x y)}
    {V B} (key : Row → K) (val : Row → V) (agg : list V → B) (T : list Row)
  : list B :=
  (λ k, agg (group_of k (key <$> T) (val <$> T))) <$> sorted_unique R (key <$> T).

Definition count_Z {V} (g : list V) : Z := Z.of_nat (length g).

(** The four aggregate tables of the charts stage. *)
Definition orders_by_date (T : list Row) : Table :=
  [ ("order_date", CTs (sorted_unique Z.le (order_date <$> T)));
    ("orders", CInt (grouped Z.le order_date order_id count_Z T));
    ("revenue", CNum (grouped Z.le order_date order_value sum_Qc T)) ].

Definition revenue_by_region (T : list Row) : Table :=
  [ ("region", CStr (sorted_unique String.le (region <$> T)));
    ("revenue", CNum (grouped String.le region order_value sum_Qc T)) ].

Definition ontime_by_wh (T : list Row) : Table :=
  [ ("warehouse_id", CStr (sorted_unique String.le (warehouse_id <$> T)));
    ("on_time_rate",
     CFloat (grouped String.le warehouse_id is_late
               (λ g, on_time <$> mean (bool_Qc <$> g)) T)) ].

Definition perf_by_cat (T : list Row) : Table :=
  [ ("product_category", CStr (sorted_unique String.le (product_category <$> T)));
    ("revenue", CNum (grouped String.le product_category order_value sum_Qc T));
    ("profit", CNum (grouped String.le product_category profit sum_Qc T));
    ("avg_delivery_days",
     CFloat (grouped String.le product_category delivery_days
               (λ g, mean (Qc_of_Z <$> g)) T)) ].

(** The six charts for the orders [T]. *)
Definition charts (T : list Row) : list Event :=
  [ EvChart "Orders Over Time" (orders_by_date T) "order_date" ["orders"];
    EvChart "Revenue Over Time" (orders_by_date T) "order_date" ["revenue"];
    EvChart "Revenue by Region" (revenue_by_region T) "region" ["revenue"];
    EvChart "On-Time Delivery Rate by Warehouse" (ontime_by_wh T)
      "warehouse_id" ["on_time_rate"];
    EvChart "Revenue vs Profit by Product Category" (perf_by_cat T)
      "product_category" ["revenue"; "profit"];
    EvChart "Average Delivery Time by Product Category (days)" (perf_by_cat T)
      "product_category" ["avg_delivery_days"] ].

(** The private copy the charts stage ends with, and the table it builds
    with [assign] for the warehouse chart. *)
Definition charts_frame (idx : list nat) (T : list Row) : Frame :=
  {| index := idx;
     columns := source_columns T ++
       [ ("order_value", CNum (order_value <$> T));
         ("delivery_days", CInt (delivery_days <$> T));
         ("total_cost", CNum (total_cost <$> T));
         ("profit", CNum (profit <$> T)) ] |}.

Definition late_frame (idx : list nat) (T : list Row) : Frame :=
  {| index := idx;
     columns := source_columns T ++
       [ ("order_value", CNum (order_value <$> T));
         ("delivery_days", CInt (delivery_days <$> T));
         ("is_late", CBool (is_late <$> T)) ] |}.

(** The rows the sidebar keeps of [T], and their labels out of [idx]. *)
Definition kept (T : list Row) (w : Widgets) : list Row :=
  select (row_mask (criteria T w) <$> T) T.

Definition kept_labels (idx : list nat) (T : list Row) (w : Widgets) : list nat :=
  select (row_mask (criteria T w) <$> T) idx.

(** ** Example tables *)

(** The three orders of the example scenario; the scenario leaves their
    identifiers and dates open. *)
Definition scenario_us_w1 (id : string) (od sd dd : Timestamp) : Row :=
  {| order_id := id; order_date := od; ship_date := sd; delivery_date := dd;
     units_sold := 2; unit_price := Qc_of_Z 10;
     shipping_cost := Qc_of_Z 1; fulfillment_cost := Qc_of_Z 1;
     delivery_status := "Late"; region := "US"; warehouse_id := "W1";
     product_category := "Electronics" |}.

Definition scenario_us_w2 (id : string) (od sd dd : Timestamp) : Row :=
  {| order_id := id; order_date := od; ship_date := sd; delivery_date := dd;
     units_sold := 1; unit_price := Qc_of_Z 20;
     shipping_cost := Qc_of_Z 2; fulfillment_cost := Qc_of_Z 2;
     delivery_status := "On Time"; region := "US"; warehouse_id := "W2";
     product_category := "Electronics" |}.

Definition scenario_eu_w1 (id : string) (od sd dd : Timestamp) : Row :=
  {| order_id := id; order_date := od; ship_date := sd; delivery_date := dd;
     units_sold := 5; unit_price := Qc_of_Z 5;
     shipping_cost := Qc_of_Z 1; fulfillment_cost := Qc_of_Z 1;
     delivery_status := "On Time"; region := "EU"; warehouse_id := "W1";
     product_category := "Books" |}.

(** The scenario with orders on three consecutive days, each shipped at
    noon of the next day and delivered two days after that. *)
Definition midnight (d : Date) : Timestamp := to_datetime d.
Definition noon (d : Date) : Timestamp := to_datetime d + NS_PER_DAY `div` 2.

Definition scenario : list Row :=
  [ scenario_us_w1 "A-1" (midnight 19000) (noon 19001) (noon 19003);
    scenario_us_w2 "A-2" (midnight 19001) (noon 19002) (noon 19004);
    scenario_eu_w1 "A-3" (midnight 19002) (noon 19003) (noon 19005) ].

(** Every region, warehouse and category, and the days 19000 to 19002. *)
Definition select_all : Widgets :=
  {| sel_regions := ["EU"; "US"];
     sel_warehouses := ["W1"; "W2"];
     sel_categories := ["Books"; "Electronics"];
     sel_dates := DateTuple [19000; 19002] |}.

Definition select_us : Widgets :=
  {| sel_regions := ["US"];
     sel_warehouses := ["W1"; "W2"];
     sel_categories := ["Books"; "Electronics"];
     sel_dates := DateTuple [19000; 19002] |}.

(** No region at all, everything else as in [select_all]. *)
Definition select_no_region : Widgets :=
  {| sel_regions := [];
     sel_warehouses := ["W1"; "W2"];
     sel_categories := ["Books"; "Electronics"];
     sel_dates := DateTuple [19000; 19002] |}.

(** A store holding the scenario as the one loaded table. *)
Definition scenario_store : State :=
  {| heap := [frame_of [0; 1; 2]%nat scenario]; out := [] |}.

(** The outputs that come out of the KPI and the charts stage. *)
Definition computed (ev : Event) : bool :=
  match ev with
  | EvMetric _ _ | EvChart _ _ _ _ => true
  | _ => false
  end.

(** A selection of a region no order of the scenario is in. *)
Definition select_apac : Widgets :=
  {| sel_regions := ["APAC"];
     sel_warehouses := ["W1"; "W2"];
     sel_categories := ["Books"; "Electronics"];
     sel_dates := DateTuple [19000; 19002] |}.

(** One order, placed at noon of day 19000. *)
Definition noon_order : list Row :=
  [ scenario_us_w1 "B-1" (noon 19000) (noon 19001) (noon 19003) ].

(** Every region, warehouse and category of [noon_order], and the date
    widget cleared: it returns the empty tuple. *)
Definition select_cleared_dates : Widgets :=
  {| sel_regions := ["US"];
     sel_warehouses := ["W1"];
     sel_categories := ["Electronics"];
     sel_dates := DateTuple [] |}.

Definition noon_store : State :=
  {| heap := [frame_of [0]%nat noon_order]; out := [] |}.

(** ** What a stage leaves alone *)

(** The script [m] leaves the first [n] objects of the store as they are,
    whether it returns or raises, and what it returns satisfies [Φ]. *)
Definition keeps {A} (n : nat) (m : Script A) (Φ : A → Prop) : Prop :=
  ∀ s, (n ≤ length (heap s))%nat →
    take n (heap (m s).2) = take n (heap s)
    ∧ (n ≤ length (heap (m s).2))%nat
    ∧ match (m s).1 with inr x => Φ x | inl _ => True end.

(** A reference to an object allocated after the first [n]. *)
Definition fresh (n : nat) (q : ref) : Prop := (n ≤ q)%nat.

(** A table that is no well-formed upload: it has no column at all. *)
Definition bare_frame : Frame := {| index := [0; 1]%nat; columns := [] |}.

Definition two_tables : State :=
  {| heap := [frame_of [0; 1; 2]%nat scenario; bare_frame]; out := [] |}.

(** ** Example files *)

(** A date parser for the examples: it reads a count of days since the
    epoch, written in decimal digits, as midnight of that day, and nothing
    else. *)
Fixpoint read_digits (s : string) (acc : Z) : option Z :=
  match s with
  | EmptyString => Some acc
  | String c s' =>
      let v := Z.of_N (Ascii.N_of_ascii c) - 48 in
      if bool_decide (0 ≤ v ≤ 9) then read_digits s' (10 * acc + v) else None
  end.

Definition parse_day_count (s : string) : option Timestamp :=
  match s with
  | EmptyString => None
  | _ => to_datetime <$> read_digits s 0
  end.

(** The example scenario as an uploaded file, with orders, shipments and
    deliveries at midnight. *)
Definition orders_file : Csv :=
  {| records := 3;
     fields :=
       [ ("order_id", CStr ["A-1"; "A-2"; "A-3"]);
         ("order_date", CStr ["19000"; "19001"; "19002"]);
         ("ship_date", CStr ["19001"; "19002"; "19003"]);
         ("delivery_date", CStr ["19003"; "19004"; "19005"]);
         ("units_sold", CInt [2; 1; 5]);
         ("unit_price", CInt [10; 20; 5]);
         ("shipping_cost", CInt [1; 2; 1]);
         ("fulfillment_cost", CInt [1; 2; 1]);
         ("delivery_status", CStr ["Late"; "On Time"; "On Time"]);
         ("region", CStr ["US"; "US"; "EU"]);
         ("warehouse_id", CStr ["W1"; "W2"; "W1"]);
         ("product_category", CStr ["Electronics"; "Electronics"; "Books"]) ] |}.

(** The same file without one of its columns. *)
Definition without_column (name : string) (file : Csv) : Csv :=
  {| records := records file;
     fields := filter (λ f, f.1 ≠ name) (fields file) |}.

Definition empty_store : State := {| heap := []; out := [] |}.

(** The table the loader makes of a file all of whose date columns are
    text that parses. *)
Definition converted (parse_datetime : string → option Timestamp)
    (f : string * Col) : string * Col :=
  if bool_decide (f.1 ∈ parse_dates) then
    match f.2 with
    | CStr l =>
        match mapM parse_datetime l with
        | Some ts => (f.1, CTs ts)
        | None => f
        end
    | _ => f
    end
  else f.

Definition loaded_frame (parse_datetime : string → option Timestamp)
    (file : Csv) : Frame :=
  {| index := seq 0 (records file);
     columns := converted parse_datetime <$> fields file |}.

(** Every column of the file that goes by the name of a date column is
    text, and every entry of it denotes an instant. *)
Definition dates_parse (parse_datetime : string → option Timestamp)
    (file : Csv) : Prop :=
  ∀ name c, (name, c) ∈ fields file → name ∈ parse_dates →
    ∃ l ts, c = CStr l ∧ mapM parse_datetime l = Some ts.

Definition missing_parse_dates : Exn :=
  ValueError "Missing column provided to 'parse_dates'".

(** [dates_parse] as a check on a given file. *)
Definition date_field_parses (parse_datetime : string → option Timestamp)
    (f : string * Col) : bool :=
  if bool_decide (f.1 ∈ parse_dates) then
    match f.2 with
    | CStr l =>
        match mapM parse_datetime l with
        | Some _ => true
        | None => false
        end
    | _ => false
    end
  else true.

#[local] Set Warnings "-inexact-float".

(** ** The sums in binary64

    The amounts of an uploaded table are float64 columns.  The bounds and
    the whole-numbered values of the statements do not depend on how the
    sums round; an equation between two sums does.  For those the revenue
    computation is followed here on machine numbers: the product of line
    50, the total of line 32 and the grouped sum of lines 90 to 94. *)
Module Binary64.

(** An int64 as a float64. *)
Definition of_int (n : Z) : float :=
  if bool_decide (0 ≤ n) then PrimFloat.of_uint63 (Uint63.of_Z n)
  else PrimFloat.opp (PrimFloat.of_uint63 (Uint63.of_Z (- n))).

(** [df["units_sold"] * df["unit_price"]]: the whole numbers are
    converted and the products rounded. *)
Definition col_mul (a : list Z) (b : list float) : list float :=
  zip_with (λ u x, PrimFloat.mul (of_int u) x) a b.

(** [.sum()] of a column: the array reduction adds the entries of a column
    of fewer than eight one after the other, each addition rounded.
    Longer columns are added in blocks, which is not followed here. *)
Definition col_sum (l : list float) : option float :=
  if bool_decide (length l < 8)%nat then Some (foldl PrimFloat.add 0%float l)
  else None.

(** One step of the grouped sum: the running sum of a group and the
    compensation for what the last addition rounded off. *)
Definition group_sum_step (acc : float * float) (val : float) : float * float :=
  let y := PrimFloat.sub val acc.2 in
  let t := PrimFloat.add acc.1 y in
  let c := PrimFloat.sub (PrimFloat.sub t acc.1) y in
  (t, if PrimFloat.eqb c c then c else 0%float).

(** The sum of one group, its entries in table order. *)
Definition group_sum (l : list float) : float :=
  (foldl group_sum_step (0%float, 0%float) l).1.

(** [df.groupby(key).agg(revenue=(column, "sum"))]: the group keys in
    ascending order and the sum of each group. *)
Definition agg_sum (keys : list string) (vals : list float)
  : list string * list float :=
  (sorted_unique String.le keys,
   (λ k, group_sum (group_of k keys vals)) <$> sorted_unique String.le keys).

(** The number a float64 stands for, if it is finite. *)
Definition exact (x : float) : option Qc :=
  match Prim2SF x with
  | S754_zero _ => Some (Q2Qc 0)
  | S754_finite sign m e =>
      Some (Q2Qc ((if sign then -1 else 1) * inject_Z (Z.pos m) * Qpower 2 e))
  | _ => None
  end.


End Binary64.



(** ** The sidebar left untouched *)

(** What the widgets return when the user changes nothing: every value the
    multiselects offer, and the pair of dates the date widget was given.
    (Of a table without rows these dates are NaT; such a table has nothing
    to filter.) *)
Definition default_widgets (T : list Row) : Widgets :=
  {| sel_regions := sorted_unique String.le (region <$> T);
     sel_warehouses := sorted_unique String.le (warehouse_id <$> T);
     sel_categories := sorted_unique String.le (product_category <$> T);
     sel_dates :=
       match table_span T with
       | (Some lo, Some hi) => DateTuple [lo; hi]
       | _ => DateTuple []
       end |}.

(** The order was placed at midnight: its date carries no time of day. *)
Definition at_midnight (t : Timestamp) : Prop := t = to_datetime (date_of t).

(** The scenario with every order placed at noon. *)
Definition noon_scenario : list Row :=
  [ scenario_us_w1 "A-1" (noon 19000) (noon 19001) (noon 19003);
    scenario_us_w2 "A-2" (noon 19001) (noon 19002) (noon 19004);
    scenario_eu_w1 "A-3" (noon 19002) (noon 19003) (noon 19005) ].

(** One day picked in the date widget. *)
Definition select_one_day : Widgets :=
  {| sel_regions := ["EU"; "US"];
     sel_warehouses := ["W1"; "W2"];
     sel_categories := ["Books"; "Electronics"];
     sel_dates := OneDate 19001 |}.

(** A range picked back to front. *)
Definition select_backwards : Widgets :=
  {| sel_regions := ["EU"; "US"];
     sel_warehouses := ["W1"; "W2"];
     sel_categories := ["Books"; "Electronics"];
     sel_dates := DateTuple [19002; 19000] |}.

(** Midnight at the start of the day of the latest order. *)
Definition last_midnight (T : list Row) : option Timestamp :=
  to_datetime <$> (table_span T).2.

(** The dates of [w'] allow whatever the dates of [w] allow: the same
    widget value, or a range around the range of [w]. *)
Definition dates_widened (w w' : Widgets) : Prop :=
  sel_dates w = sel_dates w'
  ∨ ∃ s e s' e', sel_dates w = DateTuple [s; e] ∧ sel_dates w' = DateTuple [s'; e']
                 ∧ s' ≤ s ∧ e ≤ e'.

(** The days 19001 to 19002 only, everything else as in [select_us]. *)
Definition select_us_late : Widgets :=
  {| sel_regions := ["US"];
     sel_warehouses := ["W1"; "W2"];
     sel_categories := ["Books"; "Electronics"];
     sel_dates := DateTuple [19001; 19002] |}.

Definition sum_Z (l : list Z) : Z := foldr Z.add 0 l.

(** ** An uploaded file *)

(** The example scenario as an uploaded file, its prices and costs written
    as decimal numbers and its dates as day counts. *)
Definition priced_orders_file : Csv :=
  {| records := 3;
     fields :=
       [ ("order_id", CStr ["A-1"; "A-2"; "A-3"]);
         ("order_date", CStr ["19000"; "19001"; "19002"]);
         ("ship_date", CStr ["19001"; "19002"; "19003"]);
         ("delivery_date", CStr ["19003"; "19004"; "19005"]);
         ("units_sold", CInt [2; 1; 5]);
         ("unit_price", CNum [Qc_of_Z 10; Qc_of_Z 20; Qc_of_Z 5]);
         ("shipping_cost", CNum [Qc_of_Z 1; Qc_of_Z 2; Qc_of_Z 1]);
         ("fulfillment_cost", CNum [Qc_of_Z 1; Qc_of_Z 2; Qc_of_Z 1]);
         ("delivery_status", CStr ["Late"; "On Time"; "On Time"]);
         ("region", CStr ["US"; "US"; "EU"]);
         ("warehouse_id", CStr ["W1"; "W2"; "W1"]);
         ("product_category", CStr ["Electronics"; "Electronics"; "Books"]) ] |}.

(** The scenario with every order placed, shipped and delivered at
    midnight. *)
Definition midnight_scenario : list Row :=
  [ scenario_us_w1 "A-1" (midnight 19000) (midnight 19001) (midnight 19003);
    scenario_us_w2 "A-2" (midnight 19001) (midnight 19002) (midnight 19004);
    scenario_eu_w1 "A-3" (midnight 19002) (midnight 19003) (midnight 19005) ].

(** ** What a stage shows *)

(** The script [m] shows nothing: the page is after it what it was before,
    whether it returns or raises. *)
Definition silent {A} (m : Script A) : Prop := ∀ s, out (m s).2 = out s.

(** The script [m] has shown nothing when it raises, and when it returns
    it has added to the page events that satisfy [P]. *)
Definition shows {A} (m : Script A) (P : list Event → Prop) : Prop :=
  ∀ s, match (m s).1 with
       | inl _ => out (m s).2 = out s
       | inr _ => ∃ evs, out (m s).2 = out s ++ evs ∧ P evs
       end.

(** The six tiles of the KPI stage, in the order of the page. *)
Definition six_tiles (evs : list Event) : Prop :=
  ∃ n revenue profit_total rate days cost,
    evs = [ EvMetric "Total Orders" (MCount n);
            EvMetric "Total Revenue" (MValue (Some revenue));
            EvMetric "Total Profit" (MValue (Some profit_total));
            EvMetric "On-Time Delivery Rate" (MValue rate);
            EvMetric "Avg Delivery Time (days)" (MValue days);
            EvMetric "Avg Fulfillment Cost / Order" (MValue cost) ].

(** A table with the seven columns the KPI stage reads and no other: no
    order id, no order date, no region, warehouse or category. *)
Definition kpi_columns_only (T : list Row) : Frame :=
  {| index := seq 0 (length T);
     columns :=
       [ ("delivery_status", CStr (delivery_status <$> T));
         ("ship_date", CTs (ship_date <$> T));
         ("delivery_date", CTs (delivery_date <$> T));
         ("fulfillment_cost", CNum (fulfillment_cost <$> T));
         ("shipping_cost", CNum (shipping_cost <$> T));
         ("unit_price", CNum (unit_price <$> T));
         ("units_sold", CInt (units_sold <$> T)) ] |}.
(** * Proofs *)

(** ** Lists, masks and columns *)

Lemma select_fmap {A B} (f : A → B) (m : list bool) (l : list A) :
  select m (f <$> l) = f <$> select m l.
Proof.
  revert l. induction m as [|b m IH]; intros [|x l]; simpl; try done.
  destruct b; simpl; by rewrite IH.
Qed.

Lemma select_mask {A} (f : A → bool) (l : list A) :
  select (f <$> l) l = filter (λ x, f x) l.
Proof.
  induction l as [|x l IH]; [done|].
  rewrite filter_cons. cbn [fmap list_fmap select]. rewrite IH.
  by destruct (f x).
Qed.

Lemma select_length_fmap {A B} (f : A → bool) (l : list A) (l' : list B) :
  length l' = length l →
  length (select (f <$> l) l') = length (filter (λ x, f x) l).
Proof.
  revert l'. induction l as [|x l IH]; intros [|y l'] Hlen; simplify_eq/=; [done|].
  rewrite filter_cons. specialize (IH l' Hlen).
  destruct (f x); simpl; by rewrite IH.
Qed.

Lemma select_sublist {A} (m : list bool) (l : list A) : select m l `sublist_of` l.
Proof.
  revert l. induction m as [|b m IH]; intros [|x l]; simpl;
    try apply sublist_nil_l.
  destruct b; [by apply sublist_skip | by apply sublist_cons].
Qed.

Lemma zip_with_fmap_same {A B C D} (f : B → C → D) (g : A → B) (h : A → C) l :
  zip_with f (g <$> l) (h <$> l) = (λ x, f (g x) (h x)) <$> l.
Proof. induction l; simpl; by f_equal. Qed.

Lemma fmap_fmap {A B C} (f : A → B) (g : B → C) (l : list A) :
  g <$> (f <$> l) = (λ x, g (f x)) <$> l.
Proof. by rewrite <-list_fmap_compose. Qed.

(** ** Running the script step by step *)

Lemma lookup_snoc {A} (h : list A) x : (h ++ [x]) !! length h = Some x.
Proof. by apply list_lookup_middle. Qed.

Lemma lookup_snoc_lt {A} (h : list A) x p y :
  h !! p = Some y → (h ++ [x]) !! p = Some y.
Proof. intros. by apply lookup_app_l_Some. Qed.

Lemma insert_snoc {A} (h : list A) x y : <[length h := y]> (h ++ [x]) = h ++ [y].
Proof. rewrite insert_app_r_alt by lia. by rewrite Nat.sub_diag. Qed.

Lemma insert_snoc_lt {A} (h : list A) x y z :
  <[length h := y]> ((h ++ [x]) ++ [z]) = (h ++ [y]) ++ [z].
Proof. rewrite insert_app_l by (rewrite length_app; simpl; lia). by rewrite insert_snoc. Qed.

Lemma bind_assoc {A B C} (m : Script A) (f : A → Script B) (g : B → Script C) s :
  ((m ≫= f) ≫= g) s = (m ≫= (λ x, f x ≫= g)) s.
Proof. unfold mbind, Script_bind. by destruct (m s) as [[]]. Qed.

Lemma bind_deref {A} h o p fr (k : Frame → Script A) :
  h !! p = Some fr →
  (deref p ≫= k) {| heap := h; out := o |} = k fr {| heap := h; out := o |}.
Proof. intros H. unfold mbind, Script_bind, deref. cbn. by rewrite H. Qed.

Lemma bind_alloc {A} h o fr (k : ref → Script A) :
  (alloc fr ≫= k) {| heap := h; out := o |}
  = k (length h) {| heap := h ++ [fr]; out := o |}.
Proof. reflexivity. Qed.

Lemma bind_store {A} h o p fr (k : () → Script A) :
  (store p fr ≫= k) {| heap := h; out := o |}
  = k () {| heap := <[p := fr]> h; out := o |}.
Proof. reflexivity. Qed.

Lemma bind_emit {A} h o ev (k : () → Script A) :
  (emit ev ≫= k) {| heap := h; out := o |} = k () {| heap := h; out := o ++ [ev] |}.
Proof. reflexivity. Qed.

Lemma bind_ret {A B} (x : A) (k : A → Script B) s : (mret x ≫= k) s = k x s.
Proof. reflexivity. Qed.

Lemma bind_raise {A B} e (k : A → Script B) s : (raise e ≫= k) s = (inl e, s).
Proof. reflexivity. Qed.

Global Arguments deref : simpl never.
Global Arguments sorted_unique : simpl never.
Global Arguments unique : simpl never.
Global Arguments group_of : simpl never.
Global Arguments mean : simpl never.
Global Arguments sum_Qc : simpl never.
Global Arguments select : simpl never.
Global Arguments on_time : simpl never.
Global Arguments days_of : simpl never.
Global Arguments date_of : simpl never.
Global Arguments to_datetime : simpl never.
Global Arguments Qc_of_Z : simpl never.
Global Arguments text_eqb : simpl never.
Global Arguments ts_ge : simpl never.
Global Arguments ts_le : simpl never.
Global Arguments list_min : simpl never.
Global Arguments list_max : simpl never.
Global Arguments normalize_date_range : simpl never.

Lemma lookup_app_at {A} (h l : list A) i k x :
  i = (length h + k)%nat → l !! k = Some x → (h ++ l) !! i = Some x.
Proof. intros -> Hk. by rewrite lookup_app_r, Nat.add_sub' by lia. Qed.

Lemma bind_run {A B} (m : Script A) (k : A → Script B) s x s' :
  m s = (inr x, s') → (m ≫= k) s = k x s'.
Proof. intros H. unfold mbind, Script_bind. by rewrite H. Qed.

(** The table at a reference: either the store was given with it, or it
    is one of the objects allocated since. *)
Ltac heap_lookup :=
  solve
    [ repeat first [ eassumption | apply lookup_snoc | apply lookup_snoc_lt ]
    | rewrite <-?app_assoc; cbn [app];
      first
        [ apply lookup_app_l_Some; eassumption
        | eapply (lookup_app_at _ _ _ 0);
            [rewrite ?length_app; cbn [length]; lia | reflexivity]
        | eapply (lookup_app_at _ _ _ 1);
            [rewrite ?length_app; cbn [length]; lia | reflexivity]
        | eapply (lookup_app_at _ _ _ 2);
            [rewrite ?length_app; cbn [length]; lia | reflexivity]
        | eapply (lookup_app_at _ _ _ 3);
            [rewrite ?length_app; cbn [length]; lia | reflexivity] ] ].

(** Symbolic execution: unfold the table operations down to the store
    primitives and discharge them one after the other. *)
Ltac exec :=
  unfold copy, getitem, setitem, assign, len, head, loc, fmap, Script_fmap,
    multiselect, date_input;
  repeat first
    [ progress cbn
    | rewrite insert_snoc
    | rewrite insert_snoc_lt
    | rewrite bind_assoc
    | rewrite bind_alloc
    | rewrite bind_store
    | rewrite bind_emit
    | rewrite bind_ret
    | rewrite bind_raise
    | erewrite bind_deref by heap_lookup ].

(** Bring columns computed from the columns of one table into the form
    "one value per row". *)
Ltac rowwise := repeat first [ rewrite fmap_fmap | rewrite zip_with_fmap_same ].

Lemma kpi_section_run h o p idx T :
  h !! p = Some (frame_of idx T) →
  kpi_section p {| heap := h; out := o |}
  = (inr (), {| heap := h ++ [kpi_frame idx T];
                out := o ++ kpi_tiles (length idx) T |}).
Proof.
  intros Hp. unfold kpi_section. exec. rowwise.
  unfold emit, kpi_frame, kpi_tiles, on_time_rate. cbn. rowwise.
  by rewrite <-!app_assoc.
Qed.

Lemma frame_pick_select m idx T :
  frame_pick (λ A, select m) (frame_of idx T) = frame_of (select m idx) (select m T).
Proof. unfold frame_pick, frame_of, source_columns. cbn. by rewrite !select_fmap. Qed.

Lemma sidebar_filters_run h o p idx T w :
  h !! p = Some (frame_of idx T) →
  sidebar_filters p w {| heap := h; out := o |}
  = (inr (S (length h)),
     {| heap := h ++ [frame_of (kept_labels idx T w) (kept T w);
                      frame_of (kept_labels idx T w) (kept T w)];
        out := o ++ sidebar_widgets T |}).
Proof.
  intros Hp. unfold sidebar_filters. exec. rowwise.
  unfold alloc. cbn. rewrite frame_pick_select.
  rewrite length_app, Nat.add_1_r, <-!app_assoc. reflexivity.
Qed.

Lemma mapM_pure {A B C} (f : C → Script B) (c : A → C) (g : A → B) l s :
  (∀ x s, f (c x) s = (inr (g x), s)) →
  mapM f (c <$> l) s = (inr (g <$> l), s).
Proof.
  intros Hf. induction l as [|x l IH]; [done|].
  cbn. unfold mbind, Script_bind. rewrite Hf.
  cbn in IH. unfold mbind, Script_bind in IH. by rewrite IH.
Qed.

Lemma bind_mapM {A B C D} (f : C → Script B) (c : A → C) (g : A → B) l
    (k : list B → Script D) s :
  (∀ x s, f (c x) s = (inr (g x), s)) →
  (mapM f (c <$> l) ≫= k) s = k (g <$> l) s.
Proof.
  intros Hf. unfold mbind at 1, Script_bind at 1.
  by rewrite (mapM_pure f c g l s Hf).
Qed.

Ltac exec_agg :=
  repeat first
    [ progress exec
    | erewrite bind_mapM by (intros; reflexivity) ].

Lemma charts_section_run h o p idx T :
  h !! p = Some (frame_of idx T) →
  charts_section p {| heap := h; out := o |}
  = (inr (), {| heap := h ++ [charts_frame idx T; late_frame idx T];
                out := o ++ charts T |}).
Proof.
  intros Hp. unfold charts_section.
  unfold agg_count, agg_sum, agg_mean, agg_apply, groupby. exec_agg. rowwise.
  unfold emit. cbn. by rewrite <-!app_assoc.
Qed.

(** The frames and the outputs of one run of [dashboard]. *)
Lemma dashboard_run h o p idx T w :
  h !! p = Some (frame_of idx T) →
  let T' := kept T w in
  let idx' := kept_labels idx T w in
  let preview := frame_pick (λ A, take 5) (frame_of idx T) in
  dashboard p w {| heap := h; out := o |}
  = (inr (),
     {| heap := h ++ [preview; frame_of idx' T'; frame_of idx' T'] ++
          (if bool_decide (length idx' = 0%nat) then []
           else [kpi_frame idx' T'; charts_frame idx' T'; late_frame idx' T']);
        out := o ++ [EvDataframe preview] ++ sidebar_widgets T ++
          [EvFilteredRows (length idx')] ++
          (if bool_decide (length idx' = 0%nat) then [EvWarning]
           else kpi_tiles (length idx') T' ++ charts T') |}).
Proof.
  intros Hp T' idx' preview. unfold dashboard. exec.
  erewrite bind_run by (apply sidebar_filters_run; heap_lookup).
  fold T' idx' preview. exec.
  case_bool_decide.
  - unfold emit. cbn. by rewrite <-!app_assoc.
  - erewrite bind_run by (apply kpi_section_run; heap_lookup).
    erewrite charts_section_run by heap_lookup.
    by rewrite <-!app_assoc.
Qed.

(** ** The filter, row by row *)

Lemma ts_ge_spec t x : ts_ge t x ↔ ∃ s, t = Some s ∧ s ≤ x.
Proof.
  unfold ts_ge. destruct t as [s|].
  - rewrite bool_decide_spec. split; [eauto|]. by intros (? & [= <-] & ?).
  - split; [done|]. by intros (? & ? & ?).
Qed.

Lemma ts_le_spec t x : ts_le t x ↔ ∃ e, t = Some e ∧ x ≤ e.
Proof.
  unfold ts_le. destruct t as [e|].
  - rewrite bool_decide_spec. split; [eauto|]. by intros (? & [= <-] & ?).
  - split; [done|]. by intros (? & ? & ?).
Qed.

Lemma in_range_spec C x : in_range C x ↔ ts_ge (start_ts C) x ∧ ts_le (end_ts C) x.
Proof.
  unfold in_range, ts_ge, ts_le.
  destruct (start_ts C), (end_ts C); rewrite ?bool_decide_spec; tauto.
Qed.

Lemma satisfies_all C r :
  satisfies C all_predicates r ↔
  region r ∈ regions C ∧ warehouse_id r ∈ warehouses C ∧
  product_category r ∈ categories C ∧ in_range C (order_date r).
Proof.
  unfold satisfies, all_predicates. split.
  - intros H. repeat (apply Forall_cons_1 in H as [? H]). done.
  - intros (? & ? & ? & ?). by repeat constructor.
Qed.

Lemma row_mask_spec C r : row_mask C r ↔ satisfies C all_predicates r.
Proof.
  rewrite satisfies_all, in_range_spec. unfold row_mask.
  rewrite !andb_True, !bool_decide_spec. tauto.
Qed.

(** The rows the sidebar keeps are the rows that pass the four predicates,
    in table order. *)
Lemma kept_filter T w : kept T w = filter (satisfies (criteria T w) all_predicates) T.
Proof.
  unfold kept. rewrite select_mask.
  apply list_filter_iff. intros r. apply row_mask_spec.
Qed.

Lemma kept_labels_length idx T w :
  length idx = length T → length (kept_labels idx T w) = length (kept T w).
Proof.
  intros Hlen. unfold kept_labels, kept.
  rewrite select_mask. by apply select_length_fmap.
Qed.

Lemma filter_sublist_mono {A} (P Q : A → Prop)
    `{∀ x, Decision (P x)} `{∀ x, Decision (Q x)} (l : list A) :
  (∀ x, P x → Q x) → filter P l `sublist_of` filter Q l.
Proof.
  intros HPQ. induction l as [|x l IH]; [done|].
  rewrite !filter_cons. destruct (decide (P x)) as [HP|HP].
  - rewrite decide_True by auto. by apply sublist_skip.
  - destruct (decide (Q x)); [by apply sublist_cons | done].
Qed.

Lemma satisfies_weaken C qs qs' r : qs' ⊆ qs → satisfies C qs r → satisfies C qs' r.
Proof.
  unfold satisfies. rewrite !list.Forall_forall. intros Hsub Hall q Hq.
  apply Hall, Hsub, Hq.
Qed.

(** ** Groups *)

Lemma group_of_rows `{EqDecision K} {V} (key : Row → K) (val : Row → V) k T :
  group_of k (key <$> T) (val <$> T) = val <$> filter (λ r, key r = k) T.
Proof.
  unfold group_of. induction T as [|r T IH]; [done|].
  rewrite !fmap_cons. cbn [zip_with]. rewrite !filter_cons. cbn [fst].
  destruct (decide (key r = k)); rewrite ?fmap_cons; cbn [snd]; by rewrite IH.
Qed.

Lemma unique_cons `{EqDecision A} (x : A) l :
  unique (x :: l) = x :: filter (λ y, y ≠ x) (unique l).
Proof. reflexivity. Qed.

Lemma elem_of_unique `{EqDecision A} (l : list A) x : x ∈ unique l ↔ x ∈ l.
Proof.
  induction l as [|y l IH]; [done|]. rewrite unique_cons.
  rewrite !elem_of_cons, list_elem_of_filter, IH.
  destruct (decide (x = y)); tauto.
Qed.

Lemma NoDup_unique `{EqDecision A} (l : list A) : NoDup (unique l).
Proof.
  induction l as [|y l IH]; [constructor|]. rewrite unique_cons.
  constructor; [|by apply list.NoDup_filter].
  rewrite list_elem_of_filter. by intros [? _].
Qed.

Section sorted_unique.
Context `{EqDecision A} (R : relation A) `{∀ x y, Decision (R x y)}.

Lemma sorted_unique_Permutation l : sorted_unique R l ≡ₚ unique l.
Proof. apply merge_sort_Permutation. Qed.

Lemma elem_of_sorted_unique l x : x ∈ sorted_unique R l ↔ x ∈ l.
Proof. by rewrite sorted_unique_Permutation, elem_of_unique. Qed.

Lemma NoDup_sorted_unique l : NoDup (sorted_unique R l).
Proof. rewrite sorted_unique_Permutation. apply NoDup_unique. Qed.

Lemma sorted_unique_ascending `{!Transitive R, !Total R} l :
  StronglySorted R (sorted_unique R l).
Proof. by apply StronglySorted_merge_sort. Qed.

(** The sorted keys stand in the order in which the values are first
    seen exactly when that order is ascending. *)
Lemma sorted_unique_first_seen `{!Transitive R, !Total R, !AntiSymm (=) R} l :
  sorted_unique R l = unique l ↔ StronglySorted R (unique l).
Proof.
  split.
  - intros <-. apply sorted_unique_ascending.
  - intros Hsorted. apply (StronglySorted_unique R); [|done|].
    + apply sorted_unique_ascending.
    + apply sorted_unique_Permutation.
Qed.
End sorted_unique.

Lemma select_none {A B} (f : A → bool) (l : list A) (l' : list B) :
  (∀ x, x ∈ l → f x = false) → select (f <$> l) l' = [].
Proof.
  revert l'. induction l as [|x l IH]; intros [|y l'] Hf; try done.
  rewrite fmap_cons. unfold select; fold (@select B).
  rewrite (Hf x) by left. apply IH. intros z Hz. apply Hf. by right.
Qed.

Lemma kept_labels_sublist idx T w : kept_labels idx T w `sublist_of` idx.
Proof. apply select_sublist. Qed.

(** ** The filter engine *)

(** C1: the table the sidebar returns holds exactly the rows of the source
    table that pass all four predicates (region, warehouse and category
    among the selected ones, order date within the range), in the order of
    the source table; and dropping any one predicate can only keep more
    rows. *)
Theorem filter_conjunctive h o p idx T w :
  h !! p = Some (frame_of idx T) →
  length idx = length T →
  ∃ idx' T',
    sidebar_filters p w {| heap := h; out := o |}
    = (inr (S (length h)),
       {| heap := h ++ [frame_of idx' T'; frame_of idx' T'];
          out := o ++ sidebar_widgets T |})
    ∧ T' = filter (λ r, region r ∈ regions (criteria T w)
                        ∧ warehouse_id r ∈ warehouses (criteria T w)
                        ∧ product_category r ∈ categories (criteria T w)
                        ∧ in_range (criteria T w) (order_date r)) T
    ∧ (∀ r, r ∈ T' ↔
            r ∈ T ∧ region r ∈ regions (criteria T w)
            ∧ warehouse_id r ∈ warehouses (criteria T w)
            ∧ product_category r ∈ categories (criteria T w)
            ∧ in_range (criteria T w) (order_date r))
    ∧ T' `sublist_of` T
    ∧ idx' `sublist_of` idx
    ∧ length idx' = length T'
    ∧ (∀ q, T' `sublist_of`
            filter (satisfies (criteria T w) (filter (λ q', q' ≠ q) all_predicates)) T).
Proof.
  intros Hp Hlen. exists (kept_labels idx T w), (kept T w).
  split; [by apply sidebar_filters_run|].
  assert (kept T w = filter (λ r, region r ∈ regions (criteria T w)
                        ∧ warehouse_id r ∈ warehouses (criteria T w)
                        ∧ product_category r ∈ categories (criteria T w)
                        ∧ in_range (criteria T w) (order_date r)) T) as Hkept.
  { rewrite kept_filter. apply list_filter_iff. intros r. apply satisfies_all. }
  split; [done|]. split; [|split; [|split; [|split]]].
  - intros r. rewrite Hkept, list_elem_of_filter. tauto.
  - rewrite Hkept. apply sublist_filter.
  - apply kept_labels_sublist.
  - by apply kept_labels_length.
  - intros q. rewrite kept_filter. apply filter_sublist_mono.
    intros r. apply satisfies_weaken. intros q'. rewrite list_elem_of_filter. tauto.
Qed.

Lemma filter_conjunctive_witness :
  heap scenario_store !! 0%nat = Some (frame_of [0; 1; 2]%nat scenario)
  ∧ length [0; 1; 2]%nat = length scenario
  ∧ ∃ idx' T',
      sidebar_filters 0%nat select_us scenario_store
      = (inr 2%nat,
         {| heap := heap scenario_store ++ [frame_of idx' T'; frame_of idx' T'];
            out := [] ++ sidebar_widgets scenario |})
      ∧ T' = filter (λ r, region r ∈ regions (criteria scenario select_us)
                        ∧ warehouse_id r ∈ warehouses (criteria scenario select_us)
                        ∧ product_category r ∈ categories (criteria scenario select_us)
                        ∧ in_range (criteria scenario select_us) (order_date r))
               scenario
      ∧ (∀ r, r ∈ T' ↔
              r ∈ scenario ∧ region r ∈ regions (criteria scenario select_us)
              ∧ warehouse_id r ∈ warehouses (criteria scenario select_us)
              ∧ product_category r ∈ categories (criteria scenario select_us)
              ∧ in_range (criteria scenario select_us) (order_date r))
      ∧ T' `sublist_of` scenario
      ∧ idx' `sublist_of` [0; 1; 2]%nat
      ∧ length idx' = length T'
      ∧ (∀ q, T' `sublist_of`
              filter (satisfies (criteria scenario select_us)
                        (filter (λ q', q' ≠ q) all_predicates)) scenario).
Proof.
  split; [reflexivity|]. split; [reflexivity|].
  apply (filter_conjunctive (heap scenario_store) [] 0%nat [0; 1; 2]%nat
           scenario select_us); reflexivity.
Defined.

(** C4: when no region, no warehouse or no category is selected, the table
    the sidebar returns has no rows. *)
Theorem empty_selection_matches_nothing h o p idx T w :
  h !! p = Some (frame_of idx T) →
  sel_regions w = [] ∨ sel_warehouses w = [] ∨ sel_categories w = [] →
  sidebar_filters p w {| heap := h; out := o |}
  = (inr (S (length h)),
     {| heap := h ++ [frame_of [] []; frame_of [] []];
        out := o ++ sidebar_widgets T |}).
Proof.
  intros Hp Hempty. rewrite (sidebar_filters_run _ _ _ _ _ _ Hp).
  assert (∀ r, r ∈ T → row_mask (criteria T w) r = false) as Hnone.
  { intros r _. apply not_true_is_false. intros Hr%Is_true_true%row_mask_spec.
    apply satisfies_all in Hr as (Hreg & Hwh & Hcat & _). simpl in *.
    destruct Hempty as [He|[He|He]]; rewrite He in *;
      by eapply not_elem_of_nil. }
  unfold kept, kept_labels. by rewrite !select_none.
Qed.

Lemma empty_selection_matches_nothing_witness :
  heap scenario_store !! 0%nat = Some (frame_of [0; 1; 2]%nat scenario)
  ∧ (sel_regions select_no_region = [] ∨ sel_warehouses select_no_region = []
     ∨ sel_categories select_no_region = [])
  ∧ sidebar_filters 0%nat select_no_region scenario_store
    = (inr 2%nat,
       {| heap := heap scenario_store ++ [frame_of [] []; frame_of [] []];
          out := [] ++ sidebar_widgets scenario |}).
Proof.
  split; [reflexivity|]. split; [left; reflexivity|].
  apply (empty_selection_matches_nothing (heap scenario_store) [] 0%nat
           [0; 1; 2]%nat scenario select_no_region); [reflexivity|].
  left; reflexivity.
Defined.

(** ** Sums and means over groups *)

Local Open Scope Qc_scope.

Lemma sum_Qc_cons x l : sum_Qc (x :: l) = x + sum_Qc l.
Proof. reflexivity. Qed.

Lemma sum_bool_bounds (bs : list bool) :
  0 ≤ sum_Qc (bool_Qc <$> bs) ≤ Qc_of_Z (Z.of_nat (length bs)).
Proof.
  induction bs as [|b bs [IH0 IH1]]; [done|].
  rewrite fmap_cons, sum_Qc_cons, length_cons, Nat2Z.inj_succ, <-Z.add_1_l.
  rewrite Z2Qc_inj_add, Z2Qc_inj_1.
  destruct b; simpl; split.
  - by apply Qcplus_nonneg_nonneg.
  - by apply Qcplus_le_mono_l.
  - by apply Qcplus_nonneg_nonneg.
  - apply Qcplus_le_compat; [done|assumption].
Qed.

Lemma mean_bool_bounds (bs : list bool) :
  bs ≠ [] → ∃ m, mean (bool_Qc <$> bs) = Some m ∧ 0 ≤ m ≤ 1.
Proof.
  intros Hne. destruct bs as [|b bs]; [done|].
  eexists. split; [reflexivity|].
  destruct (sum_bool_bounds (b :: bs)) as [H0 H1].
  set (n := Qc_of_Z (Z.of_nat (length (bool_Qc <$> b :: bs)))).
  assert (n = Qc_of_Z (Z.of_nat (length (b :: bs)))) as Hn
    by (unfold n; by rewrite length_fmap).
  assert (0 < n) as Hpos.
  { rewrite Hn, <-Z2Qc_inj_0, <-Z2Qc_inj_lt. simpl. lia. }
  rewrite <-Hn in H1. unfold Qcdiv. split.
  - rewrite <-(Qcmult_0_l (/ n)).
    apply Qcmult_le_mono_nonneg_r; [by apply Qclt_le_weak, Qcinv_pos|done].
  - rewrite <-(Qcmult_inv_r n) by (by apply not_symmetry, Qclt_not_eq).
    apply Qcmult_le_mono_nonneg_r; [by apply Qclt_le_weak, Qcinv_pos|done].
Qed.

Lemma on_time_bounds m : 0 ≤ m ≤ 1 → 0 ≤ on_time m ≤ Qc_of_Z 100.
Proof.
  intros [H0 H1]. unfold on_time.
  assert (0 ≤ Qc_of_Z 100) as H100 by (by rewrite <-Z2Qc_inj_0, <-Z2Qc_inj_le).
  assert (0 ≤ 1 - m ≤ 1) as [Hlo Hhi].
  { split.
    - apply (Qcplus_le_mono_r _ _ m). by replace (1 - m + m) with 1 by ring; rewrite Qcplus_0_l.
    - apply (Qcplus_le_mono_r _ _ m). replace (1 - m + m) with (1 + 0) by ring.
      by apply Qcplus_le_mono_l. }
  split.
  - rewrite <-(Qcmult_0_r (Qc_of_Z 100)). by apply Qcmult_le_mono_nonneg_l.
  - rewrite <-(Qcmult_1_r (Qc_of_Z 100)) at 2. by apply Qcmult_le_mono_nonneg_l.
Qed.

Lemma on_time_rate_bounds (rs : list Row) :
  rs ≠ [] → ∃ r, on_time_rate rs = Some r ∧ 0 ≤ r ≤ Qc_of_Z 100.
Proof.
  intros Hne. unfold on_time_rate.
  destruct (mean_bool_bounds (is_late <$> rs)) as (m & -> & Hm).
  { by destruct rs. }
  eexists. split; [reflexivity|]. by apply on_time_bounds.
Qed.

Local Close Scope Qc_scope.

(** ** The aggregation builder *)





Section exact_addition.
Context {M : Type} (add : M → M → M) (zero : M).
Hypothesis add_assoc : ∀ x y z, add x (add y z) = add (add x y) z.
Hypothesis add_comm : ∀ x y, add x y = add y x.
Hypothesis add_zero : ∀ x, add zero x = x.



End exact_addition.




Lemma grouped_elem_of `{EqDecision K} (R : relation K) `{∀ x y, Decision (R x y)}
    {V B} (key : Row → K) (val : Row → V) (agg : list V → B) T x :
  x ∈ grouped R key val agg T →
  ∃ k rs, rs = filter (λ r, key r = k) T ∧ rs ≠ [] ∧ x = agg (val <$> rs).
Proof.
  unfold grouped. intros (k & -> & Hk)%list_elem_of_fmap.
  apply elem_of_sorted_unique, list_elem_of_fmap in Hk as (r & -> & Hr).
  exists (key r), (filter (λ r', key r' = key r) T).
  split; [done|]. split; [|by rewrite group_of_rows].
  intros Hnil. assert (r ∈ filter (λ r', key r' = key r) T) as Hin
    by (by apply list_elem_of_filter).
  rewrite Hnil in Hin. by apply not_elem_of_nil in Hin.
Qed.

(** C9: for a table with at least one row, the on-time rate tile shows a
    number between 0 and 100, and so does every entry of the by-warehouse
    table. *)
Theorem on_time_rate_in_bounds h o p idx T :
  h !! p = Some (frame_of idx T) →
  T ≠ [] →
  (∃ rate,
     kpi_section p {| heap := h; out := o |}
     = (inr (), {| heap := h ++ [kpi_frame idx T];
                   out := o ++ kpi_tiles (length idx) T |})
     ∧ kpi_tiles (length idx) T !! 3%nat
       = Some (EvMetric "On-Time Delivery Rate" (MValue (Some rate)))
     ∧ (0 ≤ rate ≤ Qc_of_Z 100)%Qc)
  ∧ (∃ keys rates,
       charts_section p {| heap := h; out := o |}
       = (inr (), {| heap := h ++ [charts_frame idx T; late_frame idx T];
                     out := o ++ charts T |})
       ∧ charts T !! 3%nat
         = Some (EvChart "On-Time Delivery Rate by Warehouse"
                   [("warehouse_id", CStr keys); ("on_time_rate", CFloat rates)]
                   "warehouse_id" ["on_time_rate"])
       ∧ length rates = length keys
       ∧ ∀ x, x ∈ rates → ∃ rate, x = Some rate ∧ (0 ≤ rate ≤ Qc_of_Z 100)%Qc).
Proof.
  intros Hp Hne. split.
  - destruct (on_time_rate_bounds T Hne) as (rate & Hrate & Hbounds).
    exists rate. split; [by apply kpi_section_run|]. split; [|done].
    unfold kpi_tiles. by rewrite Hrate.
  - eexists _, _. split; [by apply charts_section_run|].
    split; [reflexivity|]. split; [unfold grouped; by rewrite length_fmap|].
    intros x (k & rs & -> & Hrs & ->)%grouped_elem_of.
    by apply (on_time_rate_bounds (filter (λ r, warehouse_id r = k) T)).
Qed.

Lemma on_time_rate_in_bounds_witness :
  heap scenario_store !! 0%nat = Some (frame_of [0; 1; 2]%nat scenario)
  ∧ scenario ≠ []
  ∧ (∃ rate,
       kpi_section 0%nat scenario_store
       = (inr (), {| heap := heap scenario_store ++ [kpi_frame [0; 1; 2]%nat scenario];
                     out := [] ++ kpi_tiles 3 scenario |})
       ∧ kpi_tiles 3 scenario !! 3%nat
         = Some (EvMetric "On-Time Delivery Rate" (MValue (Some rate)))
       ∧ (0 ≤ rate ≤ Qc_of_Z 100)%Qc)
  ∧ (∃ keys rates,
       charts_section 0%nat scenario_store
       = (inr (), {| heap := heap scenario_store
                       ++ [charts_frame [0; 1; 2]%nat scenario;
                           late_frame [0; 1; 2]%nat scenario];
                     out := [] ++ charts scenario |})
       ∧ charts scenario !! 3%nat
         = Some (EvChart "On-Time Delivery Rate by Warehouse"
                   [("warehouse_id", CStr keys); ("on_time_rate", CFloat rates)]
                   "warehouse_id" ["on_time_rate"])
       ∧ length rates = length keys
       ∧ ∀ x, x ∈ rates → ∃ rate, x = Some rate ∧ (0 ≤ rate ≤ Qc_of_Z 100)%Qc).
Proof.
  split; [reflexivity|]. split; [discriminate|].
  apply (on_time_rate_in_bounds (heap scenario_store) [] 0%nat [0; 1; 2]%nat
           scenario); [reflexivity|discriminate].
Defined.

(** C5, the claim as stated fails: on the example scenario the regions are
    first seen in the order US, EU, and the by-region table lists EU
    before US. *)
Lemma region_groups_not_in_first_seen_order :
  ∃ revenue,
    out (charts_section 0%nat scenario_store).2 !! 2%nat
    = Some (EvChart "Revenue by Region"
              [("region", CStr ["EU"; "US"]); ("revenue", revenue)]
              "region" ["revenue"])
    ∧ unique (region <$> scenario) = ["US"; "EU"].
Proof. eexists. split; vm_compute; reflexivity. Qed.

(** C5, amended: the by-date, the by-region and the by-category table each
    list the distinct keys of the table once and in ascending order (dates
    by time, regions and categories as text).  The order of a table is the
    order in which its keys are first seen in the table exactly when the
    keys are first seen in ascending order. *)
Theorem group_keys_ascending h o p idx T :
  h !! p = Some (frame_of idx T) →
  ∃ dates by_date region_keys by_region category_keys by_category,
    charts_section p {| heap := h; out := o |}
    = (inr (), {| heap := h ++ [charts_frame idx T; late_frame idx T];
                  out := o ++ charts T |})
    ∧ orders_by_date T = ("order_date", CTs dates) :: by_date
    ∧ revenue_by_region T = ("region", CStr region_keys) :: by_region
    ∧ perf_by_cat T = ("product_category", CStr category_keys) :: by_category
    ∧ (StronglySorted Z.le dates ∧ NoDup dates
       ∧ ∀ d, d ∈ dates ↔ d ∈ order_date <$> T)
    ∧ (StronglySorted String.le region_keys ∧ NoDup region_keys
       ∧ ∀ k, k ∈ region_keys ↔ k ∈ region <$> T)
    ∧ (StronglySorted String.le category_keys ∧ NoDup category_keys
       ∧ ∀ k, k ∈ category_keys ↔ k ∈ product_category <$> T)
    ∧ (dates = unique (order_date <$> T)
       ↔ StronglySorted Z.le (unique (order_date <$> T)))
    ∧ (region_keys = unique (region <$> T)
       ↔ StronglySorted String.le (unique (region <$> T)))
    ∧ (category_keys = unique (product_category <$> T)
       ↔ StronglySorted String.le (unique (product_category <$> T))).
Proof.
  intros Hp. eexists _, _, _, _, _, _.
  split; [by apply charts_section_run|].
  do 3 (split; [reflexivity|]).
  do 3 (split;
    [ split; [by apply sorted_unique_ascending; apply _|];
      split; [apply NoDup_sorted_unique|];
      intros ?; by apply elem_of_sorted_unique |]).
  split; [|split]; apply sorted_unique_first_seen; apply _.
Qed.

Lemma group_keys_ascending_witness :
  heap scenario_store !! 0%nat = Some (frame_of [0; 1; 2]%nat scenario)
  ∧ ∃ dates by_date region_keys by_region category_keys by_category,
      charts_section 0%nat scenario_store
      = (inr (), {| heap := heap scenario_store
                      ++ [charts_frame [0; 1; 2]%nat scenario;
                          late_frame [0; 1; 2]%nat scenario];
                    out := [] ++ charts scenario |})
      ∧ orders_by_date scenario = ("order_date", CTs dates) :: by_date
      ∧ revenue_by_region scenario = ("region", CStr region_keys) :: by_region
      ∧ perf_by_cat scenario
        = ("product_category", CStr category_keys) :: by_category
      ∧ (StronglySorted Z.le dates ∧ NoDup dates
         ∧ ∀ d, d ∈ dates ↔ d ∈ order_date <$> scenario)
      ∧ (StronglySorted String.le region_keys ∧ NoDup region_keys
         ∧ ∀ k, k ∈ region_keys ↔ k ∈ region <$> scenario)
      ∧ (StronglySorted String.le category_keys ∧ NoDup category_keys
         ∧ ∀ k, k ∈ category_keys ↔ k ∈ product_category <$> scenario)
      ∧ (dates = unique (order_date <$> scenario)
         ↔ StronglySorted Z.le (unique (order_date <$> scenario)))
      ∧ (region_keys = unique (region <$> scenario)
         ↔ StronglySorted String.le (unique (region <$> scenario)))
      ∧ (category_keys = unique (product_category <$> scenario)
         ↔ StronglySorted String.le (unique (product_category <$> scenario))).
Proof.
  split; [reflexivity|].
  apply (group_keys_ascending (heap scenario_store) [] 0%nat [0; 1; 2]%nat
           scenario); reflexivity.
Defined.

(** ** Orchestration *)

Lemma mean_cons x l : mean (x :: l) = Some (sum_Qc (x :: l) / Qc_of_Z (Z.of_nat (length (x :: l))))%Qc.
Proof. reflexivity. Qed.

Lemma kpi_tiles_defined n T label : T ≠ [] → EvMetric label (MValue None) ∉ kpi_tiles n T.
Proof.
  intros Hne Hin. destruct T as [|r T]; [done|].
  unfold kpi_tiles, on_time_rate in Hin. rewrite !fmap_cons, !mean_cons in Hin.
  repeat (apply elem_of_cons in Hin as [Hin|Hin]; [discriminate Hin|]).
  by apply not_elem_of_nil in Hin.
Qed.

Lemma sidebar_widgets_not_computed T ev : ev ∈ sidebar_widgets T → computed ev = false.
Proof.
  unfold sidebar_widgets. intros Hin.
  repeat (apply elem_of_cons in Hin as [->|Hin]; [done|]).
  by apply not_elem_of_nil in Hin.
Qed.

Lemma charts_no_metric T label v : EvMetric label v ∉ charts T.
Proof.
  unfold charts. intros Hin.
  repeat (apply elem_of_cons in Hin as [Hin|Hin]; [discriminate Hin|]).
  by apply not_elem_of_nil in Hin.
Qed.

(** C7: a run of the dashboard on a loaded table ends without an exception.
    When the filter keeps no row, it shows the row count 0 and the warning,
    and nothing of the KPI or the charts stage happens: no tile, no chart,
    no private copy of the table.  A tile or a chart appears only when the
    filter kept a row, and no tile ever shows NaN. *)
Theorem empty_filter_short_circuit h o p idx T w :
  h !! p = Some (frame_of idx T) →
  length idx = length T →
  ∃ preview filtered frames evs,
    dashboard p w {| heap := h; out := o |}
    = (inr (), {| heap := h ++ [preview; filtered; filtered] ++ frames;
                  out := o ++ [EvDataframe preview] ++ sidebar_widgets T ++ evs |})
    ∧ filtered = frame_of (kept_labels idx T w) (kept T w)
    ∧ (kept T w = [] →
       filtered = frame_of [] [] ∧ frames = []
       ∧ evs = [EvFilteredRows 0; EvWarning])
    ∧ (kept T w ≠ [] →
       evs = [EvFilteredRows (length (kept T w))]
             ++ kpi_tiles (length (kept T w)) (kept T w) ++ charts (kept T w))
    ∧ ((∃ ev, ev ∈ evs ∧ computed ev) → kept T w ≠ [])
    ∧ (∀ label, EvMetric label (MValue None) ∉ evs).
Proof.
  intros Hp Hlen. eexists _, _, _, _.
  split; [by apply dashboard_run|]. split; [reflexivity|].
  rewrite (kept_labels_length idx T w Hlen).
  destruct (kept T w) as [|r T'] eqn:Hkept.
  - assert (kept_labels idx T w = []) as ->.
    { apply length_zero_iff_nil. by rewrite (kept_labels_length idx T w Hlen), Hkept. }
    simpl. repeat split; try done.
    + intros (ev & Hin & Hev) _.
      repeat (apply elem_of_cons in Hin as [->|Hin]; [done|]).
      by apply not_elem_of_nil in Hin.
    + intros label Hin.
      repeat (apply elem_of_cons in Hin as [Hin|Hin]; [discriminate Hin|]).
      by apply not_elem_of_nil in Hin.
  - rewrite bool_decide_false by done. repeat split; try done.
    intros label [Hin|[Hin|Hin]%elem_of_app]%elem_of_cons; [done| |].
    + by apply kpi_tiles_defined in Hin.
    + by apply charts_no_metric in Hin.
Qed.

Lemma empty_filter_short_circuit_witness :
  heap scenario_store !! 0%nat = Some (frame_of [0; 1; 2]%nat scenario)
  ∧ length [0; 1; 2]%nat = length scenario
  ∧ kept scenario select_apac = []
  ∧ ∃ preview filtered frames evs,
      dashboard 0%nat select_apac scenario_store
      = (inr (), {| heap := heap scenario_store ++ [preview; filtered; filtered] ++ frames;
                    out := [] ++ [EvDataframe preview] ++ sidebar_widgets scenario ++ evs |})
      ∧ filtered = frame_of (kept_labels [0; 1; 2]%nat scenario select_apac)
                     (kept scenario select_apac)
      ∧ (kept scenario select_apac = [] →
         filtered = frame_of [] [] ∧ frames = []
         ∧ evs = [EvFilteredRows 0; EvWarning])
      ∧ (kept scenario select_apac ≠ [] →
         evs = [EvFilteredRows (length (kept scenario select_apac))]
               ++ kpi_tiles (length (kept scenario select_apac))
                    (kept scenario select_apac)
               ++ charts (kept scenario select_apac))
      ∧ ((∃ ev, ev ∈ evs ∧ computed ev) → kept scenario select_apac ≠ [])
      ∧ (∀ label, EvMetric label (MValue None) ∉ evs).
Proof.
  split; [reflexivity|]. split; [reflexivity|]. split; [reflexivity|].
  apply (empty_filter_short_circuit (heap scenario_store) [] 0%nat
           [0; 1; 2]%nat scenario select_apac); reflexivity.
Defined.

(** ** The example scenario *)

Lemma Qc_of_Z_eq (x : Qc) (n : Z) : (this x == inject_Z n)%Q → x = Qc_of_Z n.
Proof. intros H. by apply Qc_is_canon. Qed.

(** C2: on the three orders of the example scenario, whatever their
    identifiers and dates, a selection of the region US that excludes
    neither of the two US orders by warehouse, category or date keeps
    exactly these two, and the tiles show 2 orders, a revenue of 40, a
    profit of 34 and an on-time rate of 50. *)
Theorem scenario_kpis h o p idx w
    (i1 i2 i3 : string) (o1 s1 d1 o2 s2 d2 o3 s3 d3 : Timestamp) :
  let us1 := scenario_us_w1 i1 o1 s1 d1 in
  let us2 := scenario_us_w2 i2 o2 s2 d2 in
  let T := [us1; us2; scenario_eu_w1 i3 o3 s3 d3] in
  h !! p = Some (frame_of idx T) →
  length idx = length T →
  sel_regions w = ["US"] →
  "W1" ∈ sel_warehouses w →
  "W2" ∈ sel_warehouses w →
  "Electronics" ∈ sel_categories w →
  in_range (criteria T w) o1 →
  in_range (criteria T w) o2 →
  kept T w = [us1; us2]
  ∧ ∃ preview idx' frames avg_delivery_days,
      dashboard p w {| heap := h; out := o |}
      = (inr (),
         {| heap := h ++ [preview; frame_of idx' [us1; us2]; frame_of idx' [us1; us2]]
                      ++ frames;
            out := o ++ [EvDataframe preview] ++ sidebar_widgets T ++
              [ EvFilteredRows 2;
                EvMetric "Total Orders" (MCount 2);
                EvMetric "Total Revenue" (MValue (Some (Qc_of_Z 40)));
                EvMetric "Total Profit" (MValue (Some (Qc_of_Z 34)));
                EvMetric "On-Time Delivery Rate" (MValue (Some (Qc_of_Z 50)));
                EvMetric "Avg Delivery Time (days)" (MValue avg_delivery_days);
                EvMetric "Avg Fulfillment Cost / Order"
                  (MValue (Some (Qc_of_Z 3 / Qc_of_Z 2)%Qc)) ]
              ++ charts [us1; us2] |}).
Proof.
  intros us1 us2 T Hp Hlen Hreg Hw1 Hw2 Hcat Ho1 Ho2.
  assert (kept T w = [us1; us2]) as Hkept.
  { rewrite kept_filter. unfold T.
    rewrite filter_cons, decide_True
      by (apply satisfies_all; simpl; rewrite Hreg; repeat split; try done; by left).
    rewrite filter_cons, decide_True
      by (apply satisfies_all; simpl; rewrite Hreg; repeat split; try done; by left).
    rewrite filter_cons, decide_False; [done|].
    intros (Hin & _)%satisfies_all. simpl in Hin. rewrite Hreg in Hin.
    by apply list_elem_of_singleton in Hin. }
  split; [done|].
  assert (length (kept_labels idx T w) = 2%nat) as Hlabels
    by (by rewrite (kept_labels_length idx T w Hlen), Hkept).
  eexists _, (kept_labels idx T w), _, _.
  rewrite (dashboard_run h o p idx T w Hp). cbv zeta.
  rewrite Hlabels, Hkept. rewrite bool_decide_false by done.
  unfold kpi_tiles, on_time_rate.
  assert (sum_Qc (order_value <$> [us1; us2]) = Qc_of_Z 40) as ->
    by (by apply Qc_of_Z_eq).
  assert (sum_Qc (profit <$> [us1; us2]) = Qc_of_Z 34) as ->
    by (by apply Qc_of_Z_eq).
  assert (on_time <$> mean (bool_Qc <$> (is_late <$> [us1; us2])) = Some (Qc_of_Z 50))
    as -> by (unfold mean; cbn; f_equal; by apply Qc_of_Z_eq).
  assert (mean (fulfillment_cost <$> [us1; us2]) = Some (Qc_of_Z 3 / Qc_of_Z 2)%Qc)
    as -> by (unfold mean; cbn; f_equal; by apply Qc_is_canon).
  reflexivity.
Qed.

Lemma scenario_kpis_witness :
  heap scenario_store !! 0%nat = Some (frame_of [0; 1; 2]%nat scenario)
  ∧ length [0; 1; 2]%nat = length scenario
  ∧ sel_regions select_us = ["US"]
  ∧ "W1" ∈ sel_warehouses select_us
  ∧ "W2" ∈ sel_warehouses select_us
  ∧ "Electronics" ∈ sel_categories select_us
  ∧ in_range (criteria scenario select_us) (midnight 19000)
  ∧ in_range (criteria scenario select_us) (midnight 19001)
  ∧ kept scenario select_us
    = [ scenario_us_w1 "A-1" (midnight 19000) (noon 19001) (noon 19003);
        scenario_us_w2 "A-2" (midnight 19001) (noon 19002) (noon 19004) ]
  ∧ ∃ preview idx' frames avg_delivery_days,
      dashboard 0%nat select_us scenario_store
      = (inr (),
         {| heap := heap scenario_store
              ++ [ preview;
                   frame_of idx'
                     [ scenario_us_w1 "A-1" (midnight 19000) (noon 19001) (noon 19003);
                       scenario_us_w2 "A-2" (midnight 19001) (noon 19002) (noon 19004) ];
                   frame_of idx'
                     [ scenario_us_w1 "A-1" (midnight 19000) (noon 19001) (noon 19003);
                       scenario_us_w2 "A-2" (midnight 19001) (noon 19002) (noon 19004) ] ]
              ++ frames;
            out := [] ++ [EvDataframe preview] ++ sidebar_widgets scenario ++
              [ EvFilteredRows 2;
                EvMetric "Total Orders" (MCount 2);
                EvMetric "Total Revenue" (MValue (Some (Qc_of_Z 40)));
                EvMetric "Total Profit" (MValue (Some (Qc_of_Z 34)));
                EvMetric "On-Time Delivery Rate" (MValue (Some (Qc_of_Z 50)));
                EvMetric "Avg Delivery Time (days)" (MValue avg_delivery_days);
                EvMetric "Avg Fulfillment Cost / Order"
                  (MValue (Some (Qc_of_Z 3 / Qc_of_Z 2)%Qc)) ]
              ++ charts
                   [ scenario_us_w1 "A-1" (midnight 19000) (noon 19001) (noon 19003);
                     scenario_us_w2 "A-2" (midnight 19001) (noon 19002) (noon 19004) ] |}).
Proof.
  assert (in_range (criteria scenario select_us) (midnight 19000)) as H1
    by (vm_compute; split; discriminate).
  assert (in_range (criteria scenario select_us) (midnight 19001)) as H2
    by (vm_compute; split; discriminate).
  assert ("W1" ∈ sel_warehouses select_us) as Hw1 by apply list_elem_of_here.
  assert ("W2" ∈ sel_warehouses select_us) as Hw2
    by apply list_elem_of_further, list_elem_of_here.
  assert ("Electronics" ∈ sel_categories select_us) as Hc
    by apply list_elem_of_further, list_elem_of_here.
  do 2 (split; [reflexivity|]). split; [reflexivity|].
  do 5 (split; [assumption|]).
  exact (scenario_kpis (heap scenario_store) [] 0%nat [0; 1; 2]%nat select_us
           "A-1" "A-2" "A-3"
           (midnight 19000) (noon 19001) (noon 19003)
           (midnight 19001) (noon 19002) (noon 19004)
           (midnight 19002) (noon 19003) (noon 19005)
           eq_refl eq_refl eq_refl Hw1 Hw2 Hc H1 H2).
Defined.

(** ** The date range *)

Lemma normalize_one_date lo hi d :
  normalize_date_range lo hi (OneDate d) = (Some d, Some d).
Proof. reflexivity. Qed.

Lemma normalize_single lo hi d :
  normalize_date_range lo hi (DateTuple [d]) = (Some d, Some d).
Proof. reflexivity. Qed.

Lemma normalize_pair lo hi s e :
  normalize_date_range lo hi (DateTuple [s; e]) = (Some s, Some e).
Proof. reflexivity. Qed.

Lemma normalize_fallback lo hi ds :
  length ds ≠ 1%nat → length ds ≠ 2%nat →
  normalize_date_range lo hi (DateTuple ds) = (lo, hi).
Proof. by destruct ds as [|? [|? [|? ?]]]. Qed.

Lemma foldr_min_le x l y : y ∈ x :: l → foldr Z.min x l ≤ y.
Proof.
  induction l as [|z l IH]; simpl.
  - intros ->%list_elem_of_singleton. lia.
  - intros [->|[->|Hy]%elem_of_cons]%elem_of_cons.
    + etrans; [apply Z.le_min_r|]. apply IH. by left.
    + apply Z.le_min_l.
    + etrans; [apply Z.le_min_r|]. apply IH. by right.
Qed.

Lemma foldr_max_ge x l y : y ∈ x :: l → y ≤ foldr Z.max x l.
Proof.
  induction l as [|z l IH]; simpl.
  - intros ->%list_elem_of_singleton. lia.
  - intros [->|[->|Hy]%elem_of_cons]%elem_of_cons.
    + etrans; [|apply Z.le_max_r]. apply IH. by left.
    + apply Z.le_max_l.
    + etrans; [|apply Z.le_max_r]. apply IH. by right.
Qed.

Lemma date_of_mono x y : x ≤ y → date_of x ≤ date_of y.
Proof. intros. unfold date_of, NS_PER_DAY. by apply Z.div_le_mono. Qed.

(** With a tuple of no or of more than two dates the range is the span of
    the table counted in days: it starts at midnight of the day of the
    earliest order and ends at midnight of the day of the latest one. *)
Lemma fallback_range T w ds r :
  sel_dates w = DateTuple ds → length ds ≠ 1%nat → length ds ≠ 2%nat →
  r ∈ T →
  ∃ lo hi,
    start_ts (criteria T w) = Some (to_datetime lo)
    ∧ end_ts (criteria T w) = Some (to_datetime hi)
    ∧ lo ≤ date_of (order_date r) ≤ hi.
Proof.
  intros Hw H1 H2 Hr. unfold criteria. rewrite Hw, normalize_fallback by done.
  assert (order_date r ∈ order_date <$> T) as Hin by (by apply list_elem_of_fmap_2).
  unfold table_span, list_min, list_max. simpl.
  destruct (order_date <$> T) as [|x l]; [by apply not_elem_of_nil in Hin|].
  simpl. eexists _, _. do 2 (split; [reflexivity|]).
  split; apply date_of_mono; [by apply foldr_min_le | by apply foldr_max_ge].
Qed.

(** So an order placed at midnight is never cut off by the fallback. *)
Lemma fallback_keeps_midnight_orders T w ds r :
  sel_dates w = DateTuple ds → length ds ≠ 1%nat → length ds ≠ 2%nat →
  r ∈ T → order_date r = to_datetime (date_of (order_date r)) →
  in_range (criteria T w) (order_date r).
Proof.
  intros Hw H1 H2 Hr Hmid.
  destruct (fallback_range T w ds r Hw H1 H2 Hr) as (lo & hi & Hs & He & Hlo & Hhi).
  unfold in_range. rewrite Hs, He, Hmid. unfold to_datetime, NS_PER_DAY. lia.
Qed.

(** C3, the code at the failing input: the table holds one order, placed
    at noon; the date widget returns the empty tuple; the range falls back
    to midnight of that day at both ends, and the filter drops the order. *)
Theorem date_fallback_drops_order_after_midnight :
  order_date <$> noon_order = [noon 19000]
  ∧ normalize_date_range (table_span noon_order).1 (table_span noon_order).2
      (sel_dates select_cleared_dates) = (Some 19000, Some 19000)
  ∧ start_ts (criteria noon_order select_cleared_dates) = Some (midnight 19000)
  ∧ end_ts (criteria noon_order select_cleared_dates) = Some (midnight 19000)
  ∧ midnight 19000 < noon 19000
  ∧ sidebar_filters 0%nat select_cleared_dates noon_store
    = (inr 2%nat,
       {| heap := heap noon_store ++ [frame_of [] []; frame_of [] []];
          out := sidebar_widgets noon_order |}).
Proof. repeat split; vm_compute; reflexivity. Qed.

(** ** No stage changes the table it is given

    A small program logic over [keeps]: one rule for each store primitive
    and each table operation; the stages follow by going through their
    text. *)

Section keeps.
Context (n : nat).

Lemma keeps_ret {A} (x : A) (Φ : A → Prop) : Φ x → keeps n (mret x) Φ.
Proof. by intros HΦ s Hs. Qed.

Lemma keeps_raise {A} e (Φ : A → Prop) : keeps n (raise e) Φ.
Proof. by intros s Hs. Qed.

Lemma keeps_bind {A B} (m : Script A) (f : A → Script B) Ψ Φ :
  keeps n m Ψ → (∀ x, Ψ x → keeps n (f x) Φ) → keeps n (m ≫= f) Φ.
Proof.
  intros Hm Hf s Hs. destruct (Hm s Hs) as (Htake & Hlen & Hx).
  unfold mbind, Script_bind. destruct (m s) as [[e|x] s1]; simpl in *; [done|].
  destruct (Hf x Hx s1 Hlen) as (Htake' & Hlen' & HΦ).
  split; [congruence|done].
Qed.

Lemma keeps_any {A} (m : Script A) Φ : keeps n m Φ → keeps n m (λ _, True).
Proof.
  intros Hm s Hs. destruct (Hm s Hs) as (? & ? & ?).
  repeat split; try done. by destruct (m s).1.
Qed.

Lemma keeps_deref p : keeps n (deref p) (λ _, True).
Proof. intros s Hs. unfold deref. by destruct (heap s !! p). Qed.

Lemma keeps_emit ev : keeps n (emit ev) (λ _, True).
Proof. by intros s Hs. Qed.

Lemma keeps_alloc fr : keeps n (alloc fr) (fresh n).
Proof.
  intros s Hs. unfold alloc, fresh. simpl. rewrite length_app.
  split; [by rewrite take_app_le|]. split; [lia|done].
Qed.

Lemma keeps_store q fr : fresh n q → keeps n (store q fr) (λ _, True).
Proof.
  intros Hq s Hs. unfold store. simpl. rewrite length_insert.
  split; [by apply take_insert_ge|done].
Qed.
End keeps.

Create HintDb keeps discriminated.

(** One step through the text of a script: the rule of the primitive or
    of the operation at its head, or the case analysis it starts with. *)
Ltac keeps_step :=
  lazymatch goal with
  | |- keeps _ (mret _) _ => by apply keeps_ret
  | |- keeps _ (raise _) _ => apply keeps_raise
  | |- keeps _ (deref _) _ => apply keeps_deref
  | |- keeps _ (emit _) _ => apply keeps_emit
  | |- keeps _ (alloc _) (fresh _) => apply keeps_alloc
  | |- keeps _ (alloc _) _ => apply (keeps_any _ _ _ (keeps_alloc _ _))
  | |- keeps _ (store _ _) _ => by apply keeps_store
  | |- keeps _ (_ <$> _) _ => unfold fmap, Script_fmap
  | |- keeps ?n (?m ≫= _) _ =>
      lazymatch m with
      | alloc _ => eapply (keeps_bind n _ _ (fresh n))
      | copy _ => eapply (keeps_bind n _ _ (fresh n))
      | assign _ _ _ => eapply (keeps_bind n _ _ (fresh n))
      | loc _ _ => eapply (keeps_bind n _ _ (fresh n))
      | head _ => eapply (keeps_bind n _ _ (fresh n))
      | _ => eapply (keeps_bind n _ _ (λ _, True))
      end; [|intros ? ?]
  | |- keeps _ (match ?c with _ => _ end) _ => destruct c
  | |- keeps _ (let _ := _ in _) _ => cbv zeta
  | |- keeps _ _ (fresh _) => solve [eauto with keeps]
  | |- keeps _ _ _ =>
      first [ solve [eauto with keeps]
            | eapply keeps_any; solve [eauto with keeps] ]
  end.

Ltac keeps_auto := repeat keeps_step.

Section keeps_operations.
Context (n : nat).

Lemma keeps_copy p : keeps n (copy p) (fresh n).
Proof. unfold copy. keeps_auto. Qed.

Lemma keeps_getitem p name : keeps n (getitem p name) (λ _, True).
Proof. unfold getitem. keeps_auto. Qed.

Lemma keeps_setitem q name c : fresh n q → keeps n (setitem q name c) (λ _, True).
Proof. intros Hq. unfold setitem. keeps_auto. Qed.

Lemma keeps_assign p name c : keeps n (assign p name c) (fresh n).
Proof. unfold assign. keeps_auto. Qed.

Lemma keeps_len p : keeps n (len p) (λ _, True).
Proof. unfold len. keeps_auto. Qed.

Lemma keeps_head p : keeps n (head p) (fresh n).
Proof. unfold head. keeps_auto. Qed.

Lemma keeps_loc p mask : keeps n (loc p mask) (fresh n).
Proof. unfold loc. keeps_auto. Qed.

Lemma keeps_as_num op c : keeps n (as_num op c) (λ _, True).
Proof. unfold as_num. keeps_auto. Qed.

Lemma keeps_col_test op P c : keeps n (col_test op P c) (λ _, True).
Proof. unfold col_test. keeps_auto. Qed.
End keeps_operations.

Global Hint Resolve keeps_copy keeps_getitem keeps_setitem keeps_assign keeps_len
  keeps_head keeps_loc keeps_as_num keeps_col_test : keeps.

Section keeps_columns.
Context (n : nat).

Lemma keeps_col_mul a b : keeps n (col_mul a b) (λ _, True).
Proof. unfold col_mul. keeps_auto. Qed.

Lemma keeps_col_add a b : keeps n (col_add a b) (λ _, True).
Proof. unfold col_add. keeps_auto. Qed.

Lemma keeps_col_sub a b : keeps n (col_sub a b) (λ _, True).
Proof. unfold col_sub. keeps_auto. Qed.

Lemma keeps_dt_days c : keeps n (dt_days c) (λ _, True).
Proof. unfold dt_days. keeps_auto. Qed.

Lemma keeps_col_sum c : keeps n (col_sum c) (λ _, True).
Proof. unfold col_sum. keeps_auto. Qed.

Lemma keeps_col_mean c : keeps n (col_mean c) (λ _, True).
Proof. unfold col_mean. keeps_auto. Qed.

Lemma keeps_col_eq s c : keeps n (col_eq s c) (λ _, True).
Proof. unfold col_eq. keeps_auto. Qed.

Lemma keeps_isin values c : keeps n (isin values c) (λ _, True).
Proof. unfold isin. keeps_auto. Qed.

Lemma keeps_col_and a b : keeps n (col_and a b) (λ _, True).
Proof. unfold col_and. keeps_auto. Qed.

Lemma keeps_col_ge c t : keeps n (col_ge c t) (λ _, True).
Proof. unfold col_ge. keeps_auto. Qed.

Lemma keeps_col_le c t : keeps n (col_le c t) (λ _, True).
Proof. unfold col_le. keeps_auto. Qed.

Lemma keeps_min_date_of c : keeps n (min_date_of c) (λ _, True).
Proof. unfold min_date_of. keeps_auto. Qed.

Lemma keeps_max_date_of c : keeps n (max_date_of c) (λ _, True).
Proof. unfold max_date_of. keeps_auto. Qed.

Lemma keeps_col_sorted_unique c : keeps n (col_sorted_unique c) (λ _, True).
Proof. unfold col_sorted_unique. keeps_auto. Qed.

Lemma keeps_multiselect label options default chosen :
  keeps n (multiselect label options default chosen) (λ _, True).
Proof. unfold multiselect. keeps_auto. Qed.

Lemma keeps_date_input label value chosen :
  keeps n (date_input label value chosen) (λ _, True).
Proof. unfold date_input. keeps_auto. Qed.

Lemma keeps_groupby p key : keeps n (groupby p key) (λ _, True).
Proof. unfold groupby. keeps_auto. Qed.

Lemma keeps_mapM {A B} (f : A → Script B) l :
  (∀ x, keeps n (f x) (λ _, True)) → keeps n (mapM f l) (λ _, True).
Proof.
  intros Hf. induction l as [|x l IH]; simpl; [by apply keeps_ret|].
  eapply keeps_bind; [apply Hf|]. intros y _.
  eapply keeps_bind; [apply IH|]. intros ys _. by apply keeps_ret.
Qed.
End keeps_columns.

Global Hint Resolve keeps_col_mul keeps_col_add keeps_col_sub keeps_dt_days
  keeps_col_sum keeps_col_mean keeps_col_eq keeps_isin keeps_col_and keeps_col_ge
  keeps_col_le keeps_min_date_of keeps_max_date_of keeps_col_sorted_unique
  keeps_multiselect keeps_date_input keeps_groupby : keeps.

Section keeps_stages.
Context (n : nat).

Lemma keeps_agg_count g p column : keeps n (agg_count g p column) (λ _, True).
Proof. unfold agg_count. keeps_auto. Qed.

Lemma keeps_agg_sum g p column : keeps n (agg_sum g p column) (λ _, True).
Proof.
  unfold agg_sum. keeps_auto. apply keeps_mapM. intros. apply keeps_col_sum.
Qed.

Lemma keeps_agg_mean g p column : keeps n (agg_mean g p column) (λ _, True).
Proof.
  unfold agg_mean. keeps_auto. apply keeps_mapM. intros. apply keeps_col_mean.
Qed.

Lemma keeps_agg_apply g p column f :
  (∀ x, keeps n (f x) (λ _, True)) → keeps n (agg_apply g p column f) (λ _, True).
Proof. intros Hf. unfold agg_apply. keeps_auto. by apply keeps_mapM. Qed.
End keeps_stages.

Global Hint Resolve keeps_agg_count keeps_agg_sum keeps_agg_mean : keeps.

Lemma keeps_sidebar_filters n p w : keeps n (sidebar_filters p w) (fresh n).
Proof. unfold sidebar_filters. keeps_auto. Qed.

Lemma keeps_kpi_section n p : keeps n (kpi_section p) (λ _, True).
Proof. unfold kpi_section. keeps_auto. Qed.

Lemma keeps_charts_section n p : keeps n (charts_section p) (λ _, True).
Proof.
  unfold charts_section. keeps_auto.
  apply keeps_agg_apply. intros ?. keeps_auto.
Qed.

Lemma keeps_dashboard n p w : keeps n (dashboard p w) (λ _, True).
Proof.
  unfold dashboard. pose proof keeps_sidebar_filters.
  pose proof keeps_kpi_section. pose proof keeps_charts_section.
  keeps_auto.
Qed.

Lemma keeps_lookup {A} (m : Script A) Φ s q fr :
  keeps (length (heap s)) m Φ →
  heap s !! q = Some fr → heap (m s).2 !! q = Some fr.
Proof.
  intros Hm Hq. destruct (Hm s (le_n _)) as (Htake & _ & _).
  rewrite (take_ge (heap s)) in Htake by done.
  rewrite <-Hq, <-Htake. symmetry. apply lookup_take_lt.
  by apply lookup_lt_Some in Hq.
Qed.

Lemma keeps_result {A} (m : Script A) Φ s x :
  keeps (length (heap s)) m Φ → (m s).1 = inr x → Φ x.
Proof.
  intros Hm Hx. destruct (Hm s (le_n _)) as (_ & _ & HΦ). by rewrite Hx in HΦ.
Qed.

(** C10: whatever tables the store holds, and whether a stage returns or
    raises, every table of the store is after the filter step, after the
    KPI stage, after the charts stage and after the whole run what it was
    before; the table the filter step returns is a new object.  So the
    charts stage reads from its argument what the KPI stage read. *)
Theorem stages_leave_their_input_unchanged s q fr p w :
  heap s !! q = Some fr →
  heap (sidebar_filters p w s).2 !! q = Some fr
  ∧ (∀ df, (sidebar_filters p w s).1 = inr df → (length (heap s) ≤ df)%nat)
  ∧ heap (kpi_section p s).2 !! q = Some fr
  ∧ heap (charts_section p s).2 !! q = Some fr
  ∧ heap (charts_section p (kpi_section p s).2).2 !! q = Some fr
  ∧ heap (dashboard p w s).2 !! q = Some fr.
Proof.
  intros Hq. split; [|split; [|split; [|split; [|split]]]].
  - by eapply keeps_lookup; [apply keeps_sidebar_filters|].
  - intros df Hdf.
    by apply (keeps_result _ _ _ _ (keeps_sidebar_filters _ p w) Hdf).
  - by eapply keeps_lookup; [apply keeps_kpi_section|].
  - by eapply keeps_lookup; [apply keeps_charts_section|].
  - eapply keeps_lookup; [apply keeps_charts_section|].
    by eapply keeps_lookup; [apply keeps_kpi_section|].
  - by eapply keeps_lookup; [apply keeps_dashboard|].
Qed.

Lemma stages_leave_their_input_unchanged_witness :
  heap two_tables !! 1%nat = Some bare_frame
  ∧ heap (sidebar_filters 0%nat select_us two_tables).2 !! 1%nat = Some bare_frame
  ∧ (∀ df, (sidebar_filters 0%nat select_us two_tables).1 = inr df →
           (length (heap two_tables) ≤ df)%nat)
  ∧ heap (kpi_section 0%nat two_tables).2 !! 1%nat = Some bare_frame
  ∧ heap (charts_section 0%nat two_tables).2 !! 1%nat = Some bare_frame
  ∧ heap (charts_section 0%nat (kpi_section 0%nat two_tables).2).2 !! 1%nat
    = Some bare_frame
  ∧ heap (dashboard 0%nat select_us two_tables).2 !! 1%nat = Some bare_frame.
Proof.
  split; [reflexivity|].
  apply (stages_leave_their_input_unchanged two_tables 1%nat bare_frame 0%nat
           select_us). reflexivity.
Defined.

(** ** The loader *)

Lemma assoc_Some_elem_of {A} name (l : list (string * A)) x :
  assoc name l = Some x → (name, x) ∈ l.
Proof.
  induction l as [|[n y] l IH]; [done|]. simpl.
  destruct (String.eqb name n) eqn:Hn.
  - apply String.eqb_eq in Hn as ->. intros [= ->]. by left.
  - intros H. right. by apply IH.
Qed.

Lemma has_column_forallb {A} (l : list (string * A)) names :
  forallb (λ name, has_column name l) names = true ↔
  ∀ name, name ∈ names → is_Some (assoc name l).
Proof.
  rewrite forallb_forall. unfold has_column. split.
  - intros H name Hin%list_elem_of_In. specialize (H name Hin).
    by destruct (assoc name l).
  - intros H name Hin%list_elem_of_In. by destruct (H name Hin) as [? ->].
Qed.

Section loader.
Context (parse_datetime : string → option Timestamp).

Lemma convert_field_parsed f s :
  (f.1 ∈ parse_dates → ∃ l ts, f.2 = CStr l ∧ mapM parse_datetime l = Some ts) →
  convert_field parse_datetime f s = (inr (converted parse_datetime f), s).
Proof.
  intros Hf. unfold convert_field, converted. case_bool_decide as Hin; [|done].
  destruct (Hf Hin) as (l & ts & Hl & Hts). destruct f as [name c].
  simpl in *. subst c. unfold convert_dates.
  unfold mbind, Script_bind. by rewrite Hts.
Qed.

Lemma convert_fields_parsed (fs : list (string * Col)) s :
  (∀ name c, (name, c) ∈ fs → name ∈ parse_dates →
     ∃ l ts, c = CStr l ∧ mapM parse_datetime l = Some ts) →
  mapM (convert_field parse_datetime) fs s
  = (inr (converted parse_datetime <$> fs), s).
Proof.
  induction fs as [|[name c] fs IH]; intros Hfs; [done|].
  cbn [mapM]. unfold mbind at 1, Script_bind at 1.
  rewrite convert_field_parsed by (intros; eapply Hfs; [by left|done]).
  unfold mbind at 1, Script_bind at 1.
  rewrite IH by (intros; eapply Hfs; [by right|done]).
  reflexivity.
Qed.

Lemma assoc_converted name (fs : list (string * Col)) :
  assoc name (converted parse_datetime <$> fs)
  = (λ c, (converted parse_datetime (name, c)).2) <$> assoc name fs.
Proof.
  induction fs as [|[n c] fs IH]; [done|].
  rewrite fmap_cons. simpl.
  assert ((converted parse_datetime (n, c)).1 = n) as Hname.
  { unfold converted. simpl. case_bool_decide; [|done].
    destruct c; try done. by destruct (mapM parse_datetime l). }
  destruct (converted parse_datetime (n, c)) as [n' c'] eqn:Hconv.
  simpl in Hname. subst n'. simpl.
  destruct (String.eqb name n) eqn:Hn; [|done].
  apply String.eqb_eq in Hn as ->. simpl. by rewrite Hconv.
Qed.

Lemma load_data_missing file s :
  (∃ name, name ∈ parse_dates ∧ assoc name (fields file) = None) →
  load_data parse_datetime file s = (inl missing_parse_dates, s).
Proof.
  intros (name & Hin & Hnone). unfold load_data.
  destruct (forallb _ parse_dates) eqn:Hall; [|done].
  rewrite has_column_forallb in Hall. destruct (Hall name Hin) as [c Hc].
  congruence.
Qed.

Lemma load_data_returns file s :
  records file ≠ 0%nat →
  (∀ name, name ∈ parse_dates → is_Some (assoc name (fields file))) →
  dates_parse parse_datetime file →
  load_data parse_datetime file s
  = (inr (length (heap s)),
     {| heap := heap s ++ [loaded_frame parse_datetime file]; out := out s |}).
Proof.
  intros Hrec Hcols Hparse. unfold load_data.
  rewrite (proj2 (has_column_forallb _ _) Hcols).
  destruct (records file) as [|k] eqn:Hk; [done|].
  unfold mbind, Script_bind. rewrite convert_fields_parsed by done.
  unfold alloc, loaded_frame. by rewrite Hk.
Qed.

Lemma main_raises_with_loader file w s e s' :
  load_data parse_datetime file s = (inl e, s') →
  main parse_datetime (Some file) w s = (inl e, s').
Proof. intros H. unfold main, mbind, Script_bind. by rewrite H. Qed.

Lemma load_data_raises_nothing_changed file s e s' :
  load_data parse_datetime file s = (inl e, s') → s' = s.
Proof.
  unfold load_data. destruct (forallb _ _); [|by intros [= _ <-]].
  destruct (records file); [by intros [= _ <-]|].
  unfold mbind, Script_bind.
  assert (∀ fs r s1, mapM (convert_field parse_datetime) fs s = (r, s1) → s1 = s)
    as Hpure.
  { induction fs as [|f fs IH]; intros r s1; [by intros [= _ <-]|].
    cbn [mapM]. unfold mbind, Script_bind.
    assert (∃ r0, convert_field parse_datetime f s = (r0, s)) as [r0 ->].
    { unfold convert_field. case_bool_decide; [|by eexists].
      unfold mbind, Script_bind, convert_dates.
      destruct f.2; try (by eexists). destruct (mapM _ l); by eexists. }
    destruct r0; [by intros [= _ <-]|].
    destruct (mapM (convert_field parse_datetime) fs s) as [[?|?] s2] eqn:Hfs;
      intros [= _ <-]; by eapply IH. }
  destruct (mapM (convert_field parse_datetime) (fields file) s)
    as [[?|?] s1] eqn:Hfs; [|done].
  intros [= _ <-]. by eapply Hpure.
Qed.
End loader.

Lemma dates_parse_check parse_datetime file :
  forallb (date_field_parses parse_datetime) (fields file) = true →
  dates_parse parse_datetime file.
Proof.
  rewrite forallb_forall. intros Hall name c Hin%list_elem_of_In Hdate.
  specialize (Hall _ Hin). unfold date_field_parses in Hall. simpl in Hall.
  rewrite bool_decide_true in Hall by done.
  destruct c as [l| | | | | |]; try done.
  destruct (mapM parse_datetime l) as [ts|] eqn:Hts; [|done].
  by exists l, ts.
Qed.

(** C8, the claim as stated fails: a file with every column but
    [order_id] is loaded, and the script goes on to show the KPI tiles
    before the charts stage raises for the absent column. *)
Lemma loader_accepts_file_without_order_id :
  assoc "order_id" (fields (without_column "order_id" orders_file)) = None
  ∧ (load_data parse_day_count (without_column "order_id" orders_file)
       empty_store).1 = inr 0%nat
  ∧ ∃ s',
      main parse_day_count (Some (without_column "order_id" orders_file))
        select_all empty_store = (inl (KeyError "order_id"), s')
      ∧ out s' !! 6%nat = Some (EvMetric "Total Orders" (MCount 3)).
Proof.
  split; [reflexivity|]. split; [vm_compute; reflexivity|].
  eexists. split; vm_compute; reflexivity.
Qed.

(** C8, amended: the loader looks for the three date columns only.  When
    one of them is absent from the header it raises, nothing catches the
    exception, and the script ends with the store and the page as they
    were.  A file that has the three date columns with text that parses,
    and at least one record, is loaded whatever other column it lacks:
    its date columns become columns of instants and every other column
    stays as read. *)
Theorem loader_checks_date_columns_only parse_datetime file w s :
  ((∃ name, name ∈ parse_dates ∧ assoc name (fields file) = None) →
   load_data parse_datetime file s = (inl missing_parse_dates, s)
   ∧ main parse_datetime (Some file) w s = (inl missing_parse_dates, s))
  ∧ (records file ≠ 0%nat →
     (∀ name, name ∈ parse_dates → is_Some (assoc name (fields file))) →
     dates_parse parse_datetime file →
     load_data parse_datetime file s
     = (inr (length (heap s)),
        {| heap := heap s ++ [loaded_frame parse_datetime file]; out := out s |})
     ∧ index (loaded_frame parse_datetime file) = seq 0 (records file)
     ∧ (∀ name, name ∈ parse_dates →
          ∃ l ts, assoc name (fields file) = Some (CStr l)
                  ∧ mapM parse_datetime l = Some ts
                  ∧ assoc name (columns (loaded_frame parse_datetime file))
                    = Some (CTs ts))
     ∧ (∀ name, name ∉ parse_dates →
          assoc name (columns (loaded_frame parse_datetime file))
          = assoc name (fields file))).
Proof.
  split.
  - intros Hmissing.
    pose proof (load_data_missing parse_datetime file s Hmissing) as Hload.
    split; [done|]. by apply main_raises_with_loader.
  - intros Hrec Hcols Hparse.
    split; [by apply load_data_returns|]. split; [done|]. split.
    + intros name Hname. destruct (Hcols name Hname) as [c Hc].
      destruct (Hparse name c (assoc_Some_elem_of _ _ _ Hc) Hname)
        as (l & ts & -> & Hts).
      exists l, ts. split; [done|]. split; [done|].
      unfold loaded_frame. simpl. rewrite assoc_converted, Hc. simpl.
      unfold converted. simpl. by rewrite bool_decide_true, Hts.
    + intros name Hname. unfold loaded_frame. simpl.
      rewrite assoc_converted. destruct (assoc name (fields file)); [|done].
      simpl. unfold converted. simpl. by rewrite bool_decide_false.
Qed.

Lemma loader_checks_date_columns_only_witness :
  (∃ name, name ∈ parse_dates
           ∧ assoc name (fields (without_column "ship_date" orders_file)) = None)
  ∧ (load_data parse_day_count (without_column "ship_date" orders_file) empty_store
     = (inl missing_parse_dates, empty_store)
     ∧ main parse_day_count (Some (without_column "ship_date" orders_file))
         select_all empty_store = (inl missing_parse_dates, empty_store))
  ∧ records (without_column "region" orders_file) ≠ 0%nat
  ∧ (∀ name, name ∈ parse_dates →
       is_Some (assoc name (fields (without_column "region" orders_file))))
  ∧ dates_parse parse_day_count (without_column "region" orders_file)
  ∧ load_data parse_day_count (without_column "region" orders_file) empty_store
    = (inr 0%nat,
       {| heap := [loaded_frame parse_day_count (without_column "region" orders_file)];
          out := [] |})
  ∧ assoc "region"
      (columns (loaded_frame parse_day_count (without_column "region" orders_file)))
    = None.
Proof.
  assert (∃ name, name ∈ parse_dates
            ∧ assoc name (fields (without_column "ship_date" orders_file)) = None)
    as Hmissing.
  { exists "ship_date". split; [|reflexivity].
    apply list_elem_of_further, list_elem_of_here. }
  assert (records (without_column "region" orders_file) ≠ 0%nat) as Hrec
    by discriminate.
  assert (∀ name, name ∈ parse_dates →
            is_Some (assoc name (fields (without_column "region" orders_file))))
    as Hcols by (by apply has_column_forallb).
  assert (dates_parse parse_day_count (without_column "region" orders_file))
    as Hparse by (by apply dates_parse_check).
  split; [exact Hmissing|].
  split; [exact (proj1 (loader_checks_date_columns_only parse_day_count
                          (without_column "ship_date" orders_file) select_all
                          empty_store) Hmissing)|].
  do 3 (split; [assumption|]).
  split; [|reflexivity].
  exact (proj1 (proj2 (loader_checks_date_columns_only parse_day_count
                         (without_column "region" orders_file) select_all
                         empty_store) Hrec Hcols Hparse)).
Defined.

(** * Further properties of the script *)

(** ** The filter and the selections *)

Lemma to_datetime_date_of_le t : to_datetime (date_of t) ≤ t.
Proof.
  unfold to_datetime, date_of, NS_PER_DAY.
  pose proof (Z.mul_div_le t 86400000000000). lia.
Qed.

Lemma to_datetime_mono a b : a ≤ b → to_datetime a ≤ to_datetime b.
Proof. unfold to_datetime, NS_PER_DAY. lia. Qed.

Lemma table_span_cons r T :
  ∃ lo hi, table_span (r :: T) = (Some lo, Some hi)
    ∧ ∀ r', r' ∈ r :: T → lo ≤ date_of (order_date r') ≤ hi.
Proof.
  unfold table_span, list_min, list_max. rewrite fmap_cons. simpl.
  eexists _, _. split; [reflexivity|]. intros r' Hr'.
  assert (order_date r' ∈ order_date r :: (order_date <$> T)) as Hin.
  { rewrite <-fmap_cons. by apply list_elem_of_fmap_2. }
  split; apply date_of_mono; [by apply foldr_min_le | by apply foldr_max_ge].
Qed.

Lemma select_every {A B} (f : A → bool) (l : list A) (l' : list B) :
  (∀ x, x ∈ l → f x = true) → length l' = length l → select (f <$> l) l' = l'.
Proof.
  revert l'. induction l as [|x l IH]; intros [|y l'] Hf Hlen; simplify_eq/=;
    [done|].
  unfold select; fold (@select B). rewrite (Hf x) by left.
  f_equal. apply IH; [|done]. intros z Hz. apply Hf. by right.
Qed.

(** Which orders the untouched sidebar keeps: those placed no later than
    midnight at the start of the day of the latest order. *)
Lemma default_widgets_keep T r :
  r ∈ T →
  row_mask (criteria T (default_widgets T)) r = true ↔
  ∃ hi, (table_span T).2 = Some hi ∧ order_date r ≤ to_datetime hi.
Proof.
  intros Hr. destruct T as [|r0 T]; [by apply not_elem_of_nil in Hr|].
  destruct (table_span_cons r0 T) as (lo & hi & Hspan & Hdays).
  rewrite <-Is_true_true, row_mask_spec, satisfies_all.
  unfold criteria, default_widgets. rewrite Hspan. simpl.
  rewrite !elem_of_sorted_unique. unfold in_range. simpl.
  assert (to_datetime lo ≤ order_date r) as Hlo.
  { etrans; [|apply to_datetime_date_of_le].
    apply to_datetime_mono, (Hdays r Hr). }
  pose proof (list_elem_of_fmap_2 region _ _ Hr) as Hreg.
  pose proof (list_elem_of_fmap_2 warehouse_id _ _ Hr) as Hwh.
  pose proof (list_elem_of_fmap_2 product_category _ _ Hr) as Hcat.
  split.
  - intros (_ & _ & _ & _ & Hhi). by exists hi.
  - intros (hi' & [= <-] & Hhi). repeat split; assumption.
Qed.

Lemma at_midnight_in_span T r :
  r ∈ T → at_midnight (order_date r) → ts_le (last_midnight T) (order_date r) = true.
Proof.
  intros Hr Hmid. destruct T as [|r0 T]; [by apply not_elem_of_nil in Hr|].
  destruct (table_span_cons r0 T) as (lo & hi & Hspan & Hdays).
  unfold last_midnight. rewrite Hspan. simpl. unfold ts_le.
  apply bool_decide_eq_true. rewrite Hmid.
  apply to_datetime_mono, (Hdays r Hr).
Qed.

Lemma default_widgets_mask T r :
  r ∈ T →
  row_mask (criteria T (default_widgets T)) r = ts_le (last_midnight T) (order_date r).
Proof.
  intros Hr. apply eq_true_iff_eq. rewrite (default_widgets_keep T r Hr).
  unfold last_midnight, ts_le. destruct (table_span T).2 as [hi|]; simpl.
  - rewrite bool_decide_eq_true. split; [by intros (? & [= <-] & ?)|eauto].
  - split; [by intros (? & ? & ?)|done].
Qed.

Lemma select_ext {A B} (f g : A → bool) (l : list A) (l' : list B) :
  (∀ x, x ∈ l → f x = g x) → select (f <$> l) l' = select (g <$> l) l'.
Proof.
  revert l'. induction l as [|x l IH]; intros [|y l'] Hfg; try done.
  rewrite !fmap_cons. unfold select; fold (@select B).
  rewrite (Hfg x) by left. rewrite IH; [done|]. intros z Hz. apply Hfg. by right.
Qed.

(** X1: with the sidebar left untouched, the filter keeps the orders placed
    no later than midnight at the start of the day of the latest order, in
    table order, and drops the orders placed later on that last day. *)
Theorem untouched_sidebar_cuts_the_last_day h o p idx T :
  h !! p = Some (frame_of idx T) →
  ∃ idx',
    sidebar_filters p (default_widgets T) {| heap := h; out := o |}
    = (inr (S (length h)),
       {| heap := h ++ [ frame_of idx' (filter (λ r, ts_le (last_midnight T) (order_date r)) T);
                         frame_of idx' (filter (λ r, ts_le (last_midnight T) (order_date r)) T) ];
          out := o ++ sidebar_widgets T |})
    ∧ idx' `sublist_of` idx.
Proof.
  intros Hp. exists (kept_labels idx T (default_widgets T)).
  split; [|apply kept_labels_sublist].
  rewrite (sidebar_filters_run _ _ _ _ _ _ Hp). unfold kept.
  rewrite (select_ext _ (λ r, ts_le (last_midnight T) (order_date r)))
    by apply default_widgets_mask.
  by rewrite select_mask.
Qed.

Lemma untouched_sidebar_cuts_the_last_day_witness :
  [frame_of [0; 1; 2]%nat noon_scenario] !! 0%nat
  = Some (frame_of [0; 1; 2]%nat noon_scenario)
  ∧ ∃ idx',
      sidebar_filters 0%nat (default_widgets noon_scenario)
        {| heap := [frame_of [0; 1; 2]%nat noon_scenario]; out := [] |}
      = (inr 2%nat,
         {| heap := [frame_of [0; 1; 2]%nat noon_scenario]
              ++ [ frame_of idx'
                     (filter (λ r, ts_le (last_midnight noon_scenario) (order_date r))
                        noon_scenario);
                   frame_of idx'
                     (filter (λ r, ts_le (last_midnight noon_scenario) (order_date r))
                        noon_scenario) ];
            out := [] ++ sidebar_widgets noon_scenario |})
      ∧ idx' `sublist_of` [0; 1; 2]%nat.
Proof.
  split; [reflexivity|].
  apply (untouched_sidebar_cuts_the_last_day [frame_of [0; 1; 2]%nat noon_scenario]
           [] 0%nat [0; 1; 2]%nat noon_scenario). reflexivity.
Defined.

(** X2: when every order of the table was placed at midnight, the
    untouched sidebar keeps the whole table. *)
Theorem untouched_sidebar_keeps_midnight_orders h o p idx T :
  h !! p = Some (frame_of idx T) →
  length idx = length T →
  (∀ r, r ∈ T → at_midnight (order_date r)) →
  sidebar_filters p (default_widgets T) {| heap := h; out := o |}
  = (inr (S (length h)),
     {| heap := h ++ [frame_of idx T; frame_of idx T];
        out := o ++ sidebar_widgets T |}).
Proof.
  intros Hp Hlen Hmid. rewrite (sidebar_filters_run _ _ _ _ _ _ Hp).
  assert (∀ r, r ∈ T → row_mask (criteria T (default_widgets T)) r = true) as Hall.
  { intros r Hr. rewrite default_widgets_mask by done.
    apply at_midnight_in_span; auto. }
  unfold kept, kept_labels. by rewrite !select_every.
Qed.

Lemma untouched_sidebar_keeps_midnight_orders_witness :
  heap scenario_store !! 0%nat = Some (frame_of [0; 1; 2]%nat scenario)
  ∧ length [0; 1; 2]%nat = length scenario
  ∧ (∀ r, r ∈ scenario → at_midnight (order_date r))
  ∧ sidebar_filters 0%nat (default_widgets scenario) scenario_store
    = (inr 2%nat,
       {| heap := heap scenario_store
            ++ [frame_of [0; 1; 2]%nat scenario; frame_of [0; 1; 2]%nat scenario];
          out := [] ++ sidebar_widgets scenario |}).
Proof.
  assert (∀ r, r ∈ scenario → at_midnight (order_date r)) as Hmid.
  { intros r Hr. unfold scenario in Hr.
    repeat (apply elem_of_cons in Hr as [->|Hr]; [reflexivity|]).
    by apply not_elem_of_nil in Hr. }
  do 2 (split; [reflexivity|]). split; [exact Hmid|].
  exact (untouched_sidebar_keeps_midnight_orders (heap scenario_store) [] 0%nat
           [0; 1; 2]%nat scenario eq_refl eq_refl Hmid).
Defined.

Lemma in_range_point C d x :
  start_ts C = Some d → end_ts C = Some d → in_range C x ↔ x = d.
Proof. intros Hs He. unfold in_range. rewrite Hs, He. lia. Qed.

(** X3: with one day picked in the date widget, as a single date or as a
    tuple of one date, the filter keeps, of the orders that pass the three
    selections, only those placed at midnight at the start of that day: an
    order placed later on the day picked is dropped. *)
Theorem single_date_keeps_midnight_only h o p idx T w d :
  h !! p = Some (frame_of idx T) →
  sel_dates w = OneDate d ∨ sel_dates w = DateTuple [d] →
  ∃ idx',
    sidebar_filters p w {| heap := h; out := o |}
    = (inr (S (length h)),
       {| heap := h ++ [ frame_of idx'
                           (filter (λ r, region r ∈ sel_regions w
                                         ∧ warehouse_id r ∈ sel_warehouses w
                                         ∧ product_category r ∈ sel_categories w
                                         ∧ order_date r = to_datetime d) T);
                         frame_of idx'
                           (filter (λ r, region r ∈ sel_regions w
                                         ∧ warehouse_id r ∈ sel_warehouses w
                                         ∧ product_category r ∈ sel_categories w
                                         ∧ order_date r = to_datetime d) T) ];
          out := o ++ sidebar_widgets T |})
    ∧ idx' `sublist_of` idx.
Proof.
  intros Hp Hd. exists (kept_labels idx T w).
  split; [|apply kept_labels_sublist].
  rewrite (sidebar_filters_run _ _ _ _ _ _ Hp), kept_filter.
  rewrite (list_filter_iff (satisfies (criteria T w) all_predicates)
             (λ r, region r ∈ sel_regions w
                   ∧ warehouse_id r ∈ sel_warehouses w
                   ∧ product_category r ∈ sel_categories w
                   ∧ order_date r = to_datetime d)); [done|].
  intros r. rewrite satisfies_all.
  by rewrite (in_range_point _ (to_datetime d))
    by (unfold criteria; destruct Hd as [-> | ->]; reflexivity).
Qed.

Lemma single_date_keeps_midnight_only_witness :
  heap scenario_store !! 0%nat = Some (frame_of [0; 1; 2]%nat scenario)
  ∧ (sel_dates select_one_day = OneDate 19001
     ∨ sel_dates select_one_day = DateTuple [19001])
  ∧ ∃ idx',
      sidebar_filters 0%nat select_one_day scenario_store
      = (inr 2%nat,
         {| heap := heap scenario_store
              ++ [ frame_of idx'
                     (filter (λ r, region r ∈ sel_regions select_one_day
                                   ∧ warehouse_id r ∈ sel_warehouses select_one_day
                                   ∧ product_category r ∈ sel_categories select_one_day
                                   ∧ order_date r = to_datetime 19001) scenario);
                   frame_of idx'
                     (filter (λ r, region r ∈ sel_regions select_one_day
                                   ∧ warehouse_id r ∈ sel_warehouses select_one_day
                                   ∧ product_category r ∈ sel_categories select_one_day
                                   ∧ order_date r = to_datetime 19001) scenario) ];
            out := [] ++ sidebar_widgets scenario |})
      ∧ idx' `sublist_of` [0; 1; 2]%nat.
Proof.
  split; [reflexivity|]. split; [left; reflexivity|].
  apply (single_date_keeps_midnight_only (heap scenario_store) [] 0%nat
           [0; 1; 2]%nat scenario select_one_day 19001); [reflexivity|].
  left; reflexivity.
Defined.

(** X4: a range whose end lies before its start matches no order: the
    filter returns a table without rows. *)
Theorem backwards_range_matches_nothing h o p idx T w s e :
  h !! p = Some (frame_of idx T) →
  sel_dates w = DateTuple [s; e] →
  e < s →
  sidebar_filters p w {| heap := h; out := o |}
  = (inr (S (length h)),
     {| heap := h ++ [frame_of [] []; frame_of [] []];
        out := o ++ sidebar_widgets T |}).
Proof.
  intros Hp Hw Hlt. rewrite (sidebar_filters_run _ _ _ _ _ _ Hp).
  assert (∀ r, r ∈ T → row_mask (criteria T w) r = false) as Hnone.
  { intros r _. apply not_true_is_false. intros Hr%Is_true_true%row_mask_spec.
    apply satisfies_all in Hr as (_ & _ & _ & Hr).
    unfold in_range, criteria in Hr. rewrite Hw in Hr. simpl in Hr.
    pose proof (to_datetime_mono e s). unfold to_datetime, NS_PER_DAY in *. lia. }
  unfold kept, kept_labels. by rewrite !select_none.
Qed.

Lemma backwards_range_matches_nothing_witness :
  heap scenario_store !! 0%nat = Some (frame_of [0; 1; 2]%nat scenario)
  ∧ sel_dates select_backwards = DateTuple [19002; 19000]
  ∧ 19000 < 19002
  ∧ sidebar_filters 0%nat select_backwards scenario_store
    = (inr 2%nat,
       {| heap := heap scenario_store ++ [frame_of [] []; frame_of [] []];
          out := [] ++ sidebar_widgets scenario |}).
Proof.
  split; [reflexivity|]. split; [reflexivity|]. split; [reflexivity|].
  exact (backwards_range_matches_nothing (heap scenario_store) [] 0%nat
           [0; 1; 2]%nat scenario select_backwards 19002 19000
           eq_refl eq_refl eq_refl).
Defined.

Lemma select_sublist_mono {A B} (f g : A → bool) (l : list A) (l' : list B) :
  (∀ x, x ∈ l → f x = true → g x = true) →
  select (f <$> l) l' `sublist_of` select (g <$> l) l'.
Proof.
  revert l'. induction l as [|x l IH]; intros [|y l'] Hfg; try done.
  rewrite !fmap_cons. unfold select; fold (@select B).
  assert (select (f <$> l) l' `sublist_of` select (g <$> l) l') as Hrec.
  { apply IH. intros z Hz. apply Hfg. by right. }
  destruct (f x) eqn:Hf.
  - rewrite (Hfg x) by (done || by left). by apply sublist_skip.
  - destruct (g x); [by apply sublist_cons|done].
Qed.

Lemma dates_widened_in_range T w w' x :
  dates_widened w w' → in_range (criteria T w) x → in_range (criteria T w') x.
Proof.
  intros [Heq|(s & e & s' & e' & Hw & Hw' & Hs & He)]; unfold in_range, criteria.
  - by rewrite Heq.
  - rewrite Hw, Hw'. simpl. unfold to_datetime, NS_PER_DAY. lia.
Qed.

(** X5: selecting more regions, more warehouses or more categories, or a
    range of dates around the one selected before, never loses a row: the
    table returned for the narrower selections is a sub-list of the table
    returned for the wider ones, rows and labels alike. *)
Theorem wider_selection_keeps_more h o p idx T w w' :
  h !! p = Some (frame_of idx T) →
  sel_regions w ⊆ sel_regions w' →
  sel_warehouses w ⊆ sel_warehouses w' →
  sel_categories w ⊆ sel_categories w' →
  dates_widened w w' →
  ∃ idx1 T1 idx2 T2,
    sidebar_filters p w {| heap := h; out := o |}
    = (inr (S (length h)),
       {| heap := h ++ [frame_of idx1 T1; frame_of idx1 T1];
          out := o ++ sidebar_widgets T |})
    ∧ sidebar_filters p w' {| heap := h; out := o |}
      = (inr (S (length h)),
         {| heap := h ++ [frame_of idx2 T2; frame_of idx2 T2];
            out := o ++ sidebar_widgets T |})
    ∧ T1 `sublist_of` T2
    ∧ idx1 `sublist_of` idx2.
Proof.
  intros Hp Hreg Hwh Hcat Hdates.
  exists (kept_labels idx T w), (kept T w), (kept_labels idx T w'), (kept T w').
  split; [by apply sidebar_filters_run|]. split; [by apply sidebar_filters_run|].
  assert (∀ r, r ∈ T → row_mask (criteria T w) r = true
                      → row_mask (criteria T w') r = true) as Hmask.
  { intros r _. rewrite <-!Is_true_true, !row_mask_spec, !satisfies_all. simpl.
    intros (? & ? & ? & ?). repeat split; auto.
    by eapply dates_widened_in_range. }
  split; by apply select_sublist_mono.
Qed.

Lemma wider_selection_keeps_more_witness :
  heap scenario_store !! 0%nat = Some (frame_of [0; 1; 2]%nat scenario)
  ∧ sel_regions select_us_late ⊆ sel_regions select_all
  ∧ sel_warehouses select_us_late ⊆ sel_warehouses select_all
  ∧ sel_categories select_us_late ⊆ sel_categories select_all
  ∧ dates_widened select_us_late select_all
  ∧ ∃ idx1 T1 idx2 T2,
      sidebar_filters 0%nat select_us_late scenario_store
      = (inr 2%nat,
         {| heap := heap scenario_store ++ [frame_of idx1 T1; frame_of idx1 T1];
            out := [] ++ sidebar_widgets scenario |})
      ∧ sidebar_filters 0%nat select_all scenario_store
        = (inr 2%nat,
           {| heap := heap scenario_store ++ [frame_of idx2 T2; frame_of idx2 T2];
              out := [] ++ sidebar_widgets scenario |})
      ∧ T1 `sublist_of` T2
      ∧ idx1 `sublist_of` idx2.
Proof.
  assert (sel_regions select_us_late ⊆ sel_regions select_all) as Hreg.
  { intros x ->%list_elem_of_singleton. apply list_elem_of_further, list_elem_of_here. }
  assert (dates_widened select_us_late select_all) as Hdates.
  { right. exists 19001, 19002, 19000, 19002. repeat split; discriminate. }
  split; [reflexivity|]. split; [exact Hreg|].
  split; [intros x Hx; exact Hx|]. split; [intros x Hx; exact Hx|].
  split; [exact Hdates|].
  exact (wider_selection_keeps_more (heap scenario_store) [] 0%nat [0; 1; 2]%nat
           scenario select_us_late select_all eq_refl Hreg
           (λ x Hx, Hx) (λ x Hx, Hx) Hdates).
Defined.

Lemma select_zip {A B} (m : list bool) (l : list A) (k : list B) :
  select m (zip l k) = zip (select m l) (select m k).
Proof.
  revert l k. induction m as [|b m IH]; intros [|x l] [|y k]; try done.
  - unfold select; fold (@select A). by destruct b, (select m l).
  - unfold select; fold (@select (A * B)); fold (@select A); fold (@select B).
    cbn [zip_with]. destruct b; cbn [zip_with]; by rewrite IH.
Qed.

Lemma select_elem_of {A} (m : list bool) (l : list A) x : x ∈ select m l → x ∈ l.
Proof. intros Hx. eapply elem_of_sublist; [done|apply select_sublist]. Qed.

Lemma labelled_row_of_seq {A} (l : list A) i x :
  (i, x) ∈ zip (seq 0 (length l)) l → l !! i = Some x.
Proof.
  intros (k & Hk)%list_elem_of_lookup_1.
  apply lookup_zip_with_Some in Hk as (i' & x' & [= <- <-] & Hi & Hx).
  apply lookup_seq in Hi as [-> _]. done.
Qed.

(** X6: the table the filter returns keeps the row labels of the loaded
    table: the label that stands at a position of the result is the place
    of the row at that position in the table as loaded. *)
Theorem filtered_rows_keep_their_labels h o p T w :
  h !! p = Some (frame_of (seq 0 (length T)) T) →
  ∃ idx' T',
    sidebar_filters p w {| heap := h; out := o |}
    = (inr (S (length h)),
       {| heap := h ++ [frame_of idx' T'; frame_of idx' T'];
          out := o ++ sidebar_widgets T |})
    ∧ length idx' = length T'
    ∧ ∀ j i r, idx' !! j = Some i → T' !! j = Some r → T !! i = Some r.
Proof.
  intros Hp. exists (kept_labels (seq 0 (length T)) T w), (kept T w).
  split; [by apply sidebar_filters_run|].
  split; [apply kept_labels_length; by rewrite length_seq|].
  intros j i r Hi Hr. apply labelled_row_of_seq.
  eapply select_elem_of. rewrite select_zip.
  apply (list_elem_of_lookup_2 _ j). apply lookup_zip_with_Some.
  exists i, r. done.
Qed.

Lemma filtered_rows_keep_their_labels_witness :
  heap scenario_store !! 0%nat = Some (frame_of (seq 0 (length scenario)) scenario)
  ∧ ∃ idx' T',
      sidebar_filters 0%nat select_us_late scenario_store
      = (inr 2%nat,
         {| heap := heap scenario_store ++ [frame_of idx' T'; frame_of idx' T'];
            out := [] ++ sidebar_widgets scenario |})
      ∧ length idx' = length T'
      ∧ ∀ j i r, idx' !! j = Some i → T' !! j = Some r → scenario !! i = Some r.
Proof.
  split; [reflexivity|].
  apply (filtered_rows_keep_their_labels (heap scenario_store) [] 0%nat scenario
           select_us_late). reflexivity.
Defined.

(** ** The KPI tiles *)

Local Open Scope Qc_scope.









Local Close Scope Qc_scope.

(** ** The aggregate tables *)

Lemma sum_Z_cons x l : sum_Z (x :: l) = x + sum_Z l.
Proof. reflexivity. Qed.

Lemma sum_Z_zero {A} (l : list A) : sum_Z ((λ _, 0) <$> l) = 0.
Proof.
  induction l as [|x l IH]; [done|]. by rewrite fmap_cons, sum_Z_cons, IH.
Qed.

Lemma sum_Z_add {A} (a b : A → Z) (l : list A) :
  sum_Z ((λ k, a k + b k) <$> l) = sum_Z (a <$> l) + sum_Z (b <$> l).
Proof.
  induction l as [|x l IH]; [done|]. rewrite !fmap_cons, !sum_Z_cons, IH. lia.
Qed.

Lemma sum_Z_indicator `{EqDecision K} (ks : list K) (k0 : K) :
  NoDup ks →
  sum_Z ((λ k, if decide (k0 = k) then 1 else 0) <$> ks)
  = if decide (k0 ∈ ks) then 1 else 0.
Proof.
  induction 1 as [|k ks Hk _ IH]; [done|].
  rewrite fmap_cons, sum_Z_cons, IH.
  destruct (decide (k0 = k)) as [Heq|Hne], (decide (k0 ∈ ks)) as [Hin0|Hin0],
    (decide (k0 ∈ k :: ks)) as [Hc|Hc]; subst; try done.
  - exfalso. apply Hc. by left.
  - exfalso. apply Hc. by right.
  - apply elem_of_cons in Hc as [?|?]; done.
Qed.

(** Splitting a table by a key and adding up the sizes of the groups gives
    the size of the table. *)
Lemma grouped_count `{EqDecision K} (R : relation K) `{∀ x y, Decision (R x y)}
    {V} (key : Row → K) (val : Row → V) T :
  sum_Z (grouped R key val count_Z T) = Z.of_nat (length T).
Proof.
  unfold grouped.
  assert (NoDup (sorted_unique R (key <$> T))) as Hks by apply NoDup_sorted_unique.
  assert (∀ r, r ∈ T → key r ∈ sorted_unique R (key <$> T)) as Hkeys.
  { intros r Hr. apply elem_of_sorted_unique. by apply list_elem_of_fmap_2. }
  trans (sum_Z ((λ k, Z.of_nat (length (filter (λ r, key r = k) T)))
                  <$> sorted_unique R (key <$> T))).
  { f_equal. apply list_fmap_ext. intros _ k _.
    unfold count_Z. by rewrite group_of_rows, length_fmap. }
  revert Hks Hkeys. generalize (sorted_unique R (key <$> T)). intros ks Hks.
  induction T as [|r T IH]; intros Hkeys; [apply sum_Z_zero|].
  trans (sum_Z ((λ k, (if decide (key r = k) then 1 else 0)
                      + Z.of_nat (length (filter (λ r, key r = k) T))) <$> ks)).
  { f_equal. apply list_fmap_ext. intros _ k _.
    rewrite filter_cons. destruct (decide (key r = k)); simpl; lia. }
  rewrite sum_Z_add, sum_Z_indicator by done.
  rewrite decide_True by (apply Hkeys; left).
  rewrite IH by (intros; apply Hkeys; by right). rewrite length_cons. lia.
Qed.

(** X9: the order counts of the by-date table add up to the number of rows
    of the table: every order is counted on exactly one day. *)
Theorem order_counts_add_up_to_the_rows h o p idx T :
  h !! p = Some (frame_of idx T) →
  ∃ dates orders revenue_by_day,
    charts_section p {| heap := h; out := o |}
    = (inr (), {| heap := h ++ [charts_frame idx T; late_frame idx T];
                  out := o ++ charts T |})
    ∧ charts T !! 0%nat
      = Some (EvChart "Orders Over Time"
                [("order_date", CTs dates); ("orders", CInt orders);
                 ("revenue", CNum revenue_by_day)]
                "order_date" ["orders"])
    ∧ length orders = length dates
    ∧ sum_Z orders = Z.of_nat (length T).
Proof.
  intros Hp. eexists _, _, _.
  split; [by apply charts_section_run|]. split; [reflexivity|].
  split; [unfold grouped; by rewrite length_fmap|]. apply grouped_count.
Qed.

Lemma order_counts_add_up_to_the_rows_witness :
  heap scenario_store !! 0%nat = Some (frame_of [0; 1; 2]%nat scenario)
  ∧ ∃ dates orders revenue_by_day,
      charts_section 0%nat scenario_store
      = (inr (), {| heap := heap scenario_store
                      ++ [charts_frame [0; 1; 2]%nat scenario;
                          late_frame [0; 1; 2]%nat scenario];
                    out := [] ++ charts scenario |})
      ∧ charts scenario !! 0%nat
        = Some (EvChart "Orders Over Time"
                  [("order_date", CTs dates); ("orders", CInt orders);
                   ("revenue", CNum revenue_by_day)]
                  "order_date" ["orders"])
      ∧ length orders = length dates
      ∧ sum_Z orders = Z.of_nat (length scenario).
Proof.
  split; [reflexivity|].
  apply (order_counts_add_up_to_the_rows (heap scenario_store) [] 0%nat
           [0; 1; 2]%nat scenario). reflexivity.
Defined.

(** X10: no aggregate table has a group without rows or a cell without a
    value: every order count of the by-date table is at least 1, and every
    average delivery time of the by-category table is a number, with one
    entry per key in each column. *)
Theorem no_group_is_empty h o p idx T :
  h !! p = Some (frame_of idx T) →
  ∃ dates orders revenue_by_day categories_ revenue_by_cat profit_by_cat days,
    charts_section p {| heap := h; out := o |}
    = (inr (), {| heap := h ++ [charts_frame idx T; late_frame idx T];
                  out := o ++ charts T |})
    ∧ orders_by_date T
      = [("order_date", CTs dates); ("orders", CInt orders);
         ("revenue", CNum revenue_by_day)]
    ∧ perf_by_cat T
      = [("product_category", CStr categories_); ("revenue", CNum revenue_by_cat);
         ("profit", CNum profit_by_cat); ("avg_delivery_days", CFloat days)]
    ∧ (length orders = length dates ∧ length revenue_by_day = length dates)
    ∧ (length revenue_by_cat = length categories_
       ∧ length profit_by_cat = length categories_
       ∧ length days = length categories_)
    ∧ (∀ n, n ∈ orders → 1 ≤ n)
    ∧ (∀ x, x ∈ days → is_Some x).
Proof.
  intros Hp. eexists _, _, _, _, _, _, _.
  split; [by apply charts_section_run|]. do 2 (split; [reflexivity|]).
  split; [unfold grouped; by rewrite !length_fmap|].
  split; [unfold grouped; by rewrite !length_fmap|].
  split.
  - intros n (k & rs & -> & Hrs & ->)%grouped_elem_of.
    unfold count_Z. rewrite length_fmap.
    destruct (filter _ T); [done|]. simpl. lia.
  - intros x (k & rs & -> & Hrs & ->)%grouped_elem_of.
    destruct (filter _ T); [done|]. by rewrite !fmap_cons, mean_cons.
Qed.

Lemma no_group_is_empty_witness :
  heap scenario_store !! 0%nat = Some (frame_of [0; 1; 2]%nat scenario)
  ∧ ∃ dates orders revenue_by_day categories_ revenue_by_cat profit_by_cat days,
      charts_section 0%nat scenario_store
      = (inr (), {| heap := heap scenario_store
                      ++ [charts_frame [0; 1; 2]%nat scenario;
                          late_frame [0; 1; 2]%nat scenario];
                    out := [] ++ charts scenario |})
      ∧ orders_by_date scenario
        = [("order_date", CTs dates); ("orders", CInt orders);
           ("revenue", CNum revenue_by_day)]
      ∧ perf_by_cat scenario
        = [("product_category", CStr categories_); ("revenue", CNum revenue_by_cat);
           ("profit", CNum profit_by_cat); ("avg_delivery_days", CFloat days)]
      ∧ (length orders = length dates ∧ length revenue_by_day = length dates)
      ∧ (length revenue_by_cat = length categories_
         ∧ length profit_by_cat = length categories_
         ∧ length days = length categories_)
      ∧ (∀ n, n ∈ orders → 1 ≤ n)
      ∧ (∀ x, x ∈ days → is_Some x).
Proof.
  split; [reflexivity|].
  apply (no_group_is_empty (heap scenario_store) [] 0%nat [0; 1; 2]%nat scenario).
  reflexivity.
Defined.

(** ** From the file to the page *)

Lemma frame_pick_take k idx T :
  frame_pick (λ A, take k) (frame_of idx T) = frame_of (take k idx) (take k T).
Proof. unfold frame_pick, frame_of, source_columns. cbn. by rewrite !fmap_take. Qed.

(** X12: the whole script on an upload.  When the loader returns the table
    of the orders [T], the script ends without an exception and the page
    shows, in this order, the first five rows of the table, the four
    widgets of the sidebar, the number of rows the filter keeps, and then
    the warning alone if that number is zero, or else the six tiles and
    the six charts of the kept rows; the Total Orders tile shows the
    number of the row count line. *)
Theorem main_on_a_loaded_table parse_datetime file w s p s1 idx T :
  load_data parse_datetime file s = (inr p, s1) →
  heap s1 !! p = Some (frame_of idx T) →
  length idx = length T →
  ∃ frames,
    main parse_datetime (Some file) w s
    = (inr (),
       {| heap := heap s1 ++ frames;
          out := out s1 ++ [EvDataframe (frame_of (take 5 idx) (take 5 T))]
                   ++ sidebar_widgets T
                   ++ [EvFilteredRows (length (kept T w))]
                   ++ match kept T w with
                      | [] => [EvWarning]
                      | _ => kpi_tiles (length (kept T w)) (kept T w)
                             ++ charts (kept T w)
                      end |}).
Proof.
  intros Hload Hp Hlen. destruct s1 as [h1 o1]. cbn [heap out] in *.
  assert (∀ k,
    main parse_datetime (Some file) w s = k → ∃ frames, k
    = (inr (),
       {| heap := h1 ++ frames;
          out := o1 ++ [EvDataframe (frame_of (take 5 idx) (take 5 T))]
                   ++ sidebar_widgets T
                   ++ [EvFilteredRows (length (kept T w))]
                   ++ match kept T w with
                      | [] => [EvWarning]
                      | _ => kpi_tiles (length (kept T w)) (kept T w)
                             ++ charts (kept T w)
                      end |})) as Hrun; [|by eapply Hrun].
  intros k <-. unfold main.
  erewrite bind_run by exact Hload.
  erewrite dashboard_run by exact Hp. cbv zeta.
  rewrite frame_pick_take.
  rewrite (kept_labels_length idx T w) by done.
  rewrite <-?app_assoc. cbn [app].
  destruct (kept T w) as [|r T'] eqn:Hkept; eexists; reflexivity.
Qed.

Lemma main_on_a_loaded_table_witness :
  load_data parse_day_count priced_orders_file empty_store
  = (inr 0%nat, {| heap := [frame_of [0; 1; 2]%nat midnight_scenario]; out := [] |})
  ∧ heap {| heap := [frame_of [0; 1; 2]%nat midnight_scenario]; out := [] |} !! 0%nat
    = Some (frame_of [0; 1; 2]%nat midnight_scenario)
  ∧ length [0; 1; 2]%nat = length midnight_scenario
  ∧ ∃ frames,
      main parse_day_count (Some priced_orders_file) select_us empty_store
      = (inr (),
         {| heap := [frame_of [0; 1; 2]%nat midnight_scenario] ++ frames;
            out := [] ++ [EvDataframe
                            (frame_of (take 5 [0; 1; 2]%nat)
                               (take 5 midnight_scenario))]
                     ++ sidebar_widgets midnight_scenario
                     ++ [EvFilteredRows (length (kept midnight_scenario select_us))]
                     ++ match kept midnight_scenario select_us with
                        | [] => [EvWarning]
                        | _ => kpi_tiles (length (kept midnight_scenario select_us))
                                 (kept midnight_scenario select_us)
                               ++ charts (kept midnight_scenario select_us)
                        end |}).
Proof.
  split; [reflexivity|]. split; [reflexivity|]. split; [reflexivity|].
  apply (main_on_a_loaded_table parse_day_count priced_orders_file select_us
           empty_store 0%nat
           {| heap := [frame_of [0; 1; 2]%nat midnight_scenario]; out := [] |}
           [0; 1; 2]%nat midnight_scenario); reflexivity.
Defined.

(** ** What the KPI stage shows of any table *)

Lemma silent_ret {A} (x : A) : silent (mret x).
Proof. by intros s. Qed.

Lemma silent_raise {A} e : silent (@raise A e).
Proof. by intros s. Qed.

Lemma silent_deref p : silent (deref p).
Proof. intros s. unfold deref. by destruct (heap s !! p). Qed.

Lemma silent_alloc fr : silent (alloc fr).
Proof. by intros s. Qed.

Lemma silent_store q fr : silent (store q fr).
Proof. by intros s. Qed.

Lemma silent_bind {A B} (m : Script A) (f : A → Script B) :
  silent m → (∀ x, silent (f x)) → silent (m ≫= f).
Proof.
  intros Hm Hf s. unfold mbind, Script_bind. specialize (Hm s).
  destruct (m s) as [[e|x] s1]; simpl in *; [done|].
  by rewrite (Hf x s1).
Qed.

Lemma shows_bind {A B} (m : Script A) (f : A → Script B) P :
  silent m → (∀ x, shows (f x) P) → shows (m ≫= f) P.
Proof.
  intros Hm Hf s. unfold mbind, Script_bind. specialize (Hm s).
  destruct (m s) as [[e|x] s1]; simpl in *; [done|].
  specialize (Hf x s1). rewrite Hm in Hf. done.
Qed.

(** A script that only reads and computes is silent: go through its text
    down to the store primitives. *)
Ltac silent_step :=
  lazymatch goal with
  | |- silent (mret _) => apply silent_ret
  | |- silent (raise _) => apply silent_raise
  | |- silent (deref _) => apply silent_deref
  | |- silent (alloc _) => apply silent_alloc
  | |- silent (store _ _) => apply silent_store
  | |- silent (_ ≫= _) => apply silent_bind; [|intros ?]
  | |- silent (match ?c with _ => _ end) => destruct c
  | |- silent (_ <$> _) => unfold fmap, Script_fmap
  | |- silent _ =>
      progress unfold copy, getitem, setitem, assign, len, head, loc, as_num,
        col_mul, col_add, col_sub, dt_days, col_sum, col_mean, col_test, col_eq,
        isin, col_and, col_ge, col_le
  end.

Ltac silent_auto := repeat silent_step.

(** The KPI stage shows all six tiles or none in the model, where an
    exception of any kind ends the stage before the first tile. *)
Lemma kpi_section_shows p : shows (kpi_section p) six_tiles.
Proof.
  unfold kpi_section.
  repeat (apply shows_bind; [by silent_auto|intros ?]).
  intros s0. unfold mbind, Script_bind, emit. cbn.
  eexists. split; [by rewrite <-!app_assoc|].
  by eexists _, _, _, _, _, _.
Qed.

(** X13: a missing column costs the KPI stage all its tiles, not some.
    Whatever the store and the table: when the stage raises a KeyError, a
    column it reads being absent, it has shown nothing; and when it
    returns it has added to the page exactly the six tiles, in their
    order.  Runs that end in another exception, on columns of a dtype the
    model does not follow, are left open. *)
Theorem kpi_section_key_error_shows_nothing p s :
  match (kpi_section p s).1 with
  | inl (KeyError _) => out (kpi_section p s).2 = out s
  | inl _ => True
  | inr _ =>
      ∃ n revenue profit_total rate days cost,
        out (kpi_section p s).2
        = out s ++ [ EvMetric "Total Orders" (MCount n);
                     EvMetric "Total Revenue" (MValue (Some revenue));
                     EvMetric "Total Profit" (MValue (Some profit_total));
                     EvMetric "On-Time Delivery Rate" (MValue rate);
                     EvMetric "Avg Delivery Time (days)" (MValue days);
                     EvMetric "Avg Fulfillment Cost / Order" (MValue cost) ]
  end.
Proof.
  pose proof (kpi_section_shows p s) as Hshows.
  destruct (kpi_section p s).1 as [[]|]; try done.
  destruct Hshows as (evs & Hout & n & revenue & profit_total & rate & days & cost & ->).
  by eexists _, _, _, _, _, _.
Qed.

(** ** The columns the KPI stage reads *)

Lemma assoc_set_eq {A} name (x : A) l : assoc name (assoc_set name x l) = Some x.
Proof.
  induction l as [|[n y] l IH]; simpl.
  - by rewrite String.eqb_refl.
  - destruct (String.eqb name n) eqn:E; simpl; by rewrite E.
Qed.

Lemma assoc_set_ne {A} name n (x : A) l :
  name ≠ n → assoc name (assoc_set n x l) = assoc name l.
Proof.
  intros Hne. induction l as [|[n' y] l IH]; simpl.
  - by apply String.eqb_neq in Hne as ->.
  - destruct (String.eqb n n') eqn:E; simpl; [|by rewrite IH].
    apply String.eqb_eq in E as <-. by apply String.eqb_neq in Hne as ->.
Qed.

(** X14: the KPI stage reads seven columns and no other.  A table that
    holds the units, the unit price, the two costs, the ship and delivery
    dates and the delivery status of the orders [T] gets the six tiles of
    [T], whatever else it holds or lacks: no order id, region, warehouse,
    category or order date is needed, and columns already named
    [order_value], [profit] and so on are not read but replaced. *)
Theorem kpi_section_reads_seven_columns h o p fr T :
  h !! p = Some fr →
  assoc "units_sold" (columns fr) = Some (CInt (units_sold <$> T)) →
  assoc "unit_price" (columns fr) = Some (CNum (unit_price <$> T)) →
  assoc "shipping_cost" (columns fr) = Some (CNum (shipping_cost <$> T)) →
  assoc "fulfillment_cost" (columns fr) = Some (CNum (fulfillment_cost <$> T)) →
  assoc "delivery_date" (columns fr) = Some (CTs (delivery_date <$> T)) →
  assoc "ship_date" (columns fr) = Some (CTs (ship_date <$> T)) →
  assoc "delivery_status" (columns fr) = Some (CStr (delivery_status <$> T)) →
  (kpi_section p {| heap := h; out := o |}).1 = inr ()
  ∧ out (kpi_section p {| heap := h; out := o |}).2
    = o ++ kpi_tiles (length (index fr)) T.
Proof.
  intros Hp H1 H2 H3 H4 H5 H6 H7. unfold kpi_section.
  unfold copy, getitem, setitem, len, fmap, Script_fmap.
  repeat first
    [ rewrite insert_snoc
    | rewrite bind_assoc
    | rewrite bind_alloc
    | rewrite bind_store
    | rewrite bind_emit
    | rewrite bind_ret
    | erewrite bind_deref by heap_lookup
    | rewrite assoc_set_eq
    | rewrite assoc_set_ne by done
    | rewrite H1 | rewrite H2 | rewrite H3 | rewrite H4
    | rewrite H5 | rewrite H6 | rewrite H7
    | progress cbn ].
  rowwise. unfold emit, kpi_tiles, on_time_rate. cbn. rowwise.
  by rewrite <-!app_assoc.
Qed.

Lemma kpi_section_reads_seven_columns_witness :
  (kpi_section 0%nat {| heap := [kpi_columns_only scenario]; out := [] |}).1 = inr ()
  ∧ out (kpi_section 0%nat {| heap := [kpi_columns_only scenario]; out := [] |}).2
    = [] ++ kpi_tiles (length (index (kpi_columns_only scenario))) scenario.
Proof.
  apply (kpi_section_reads_seven_columns [kpi_columns_only scenario] [] 0%nat
           (kpi_columns_only scenario) scenario); reflexivity.
Defined.

(** ** The delivery time averages *)

Lemma days_of_bounds delta lo hi :
  lo * NS_PER_DAY ≤ delta < (hi + 1) * NS_PER_DAY → lo ≤ days_of delta ≤ hi.
Proof.
  intros [Hlo Hhi]. unfold days_of. split.
  - apply Z.div_le_lower_bound; [done|]. lia.
  - apply Z.lt_succ_r. apply Z.div_lt_upper_bound; [done|]. lia.
Qed.

Local Open Scope Qc_scope.

Lemma sum_Qc_bounds (a b : Qc) (l : list Qc) :
  (∀ x, x ∈ l → a ≤ x ≤ b) →
  Qc_of_Z (Z.of_nat (length l)) * a ≤ sum_Qc l
  ∧ sum_Qc l ≤ Qc_of_Z (Z.of_nat (length l)) * b.
Proof.
  induction l as [|x l IH]; intros Hl.
  - change (Z.of_nat (length (@nil Qc))) with 0%Z. change (sum_Qc []) with 0.
    rewrite Z2Qc_inj_0, !Qcmult_0_l. split; apply Qcle_refl.
  - destruct IH as [IH1 IH2]; [intros; apply Hl; by right|].
    destruct (Hl x) as [Hx1 Hx2]; [by left|].
    rewrite sum_Qc_cons, length_cons, Nat2Z.inj_succ, <-Z.add_1_l.
    rewrite Z2Qc_inj_add, Z2Qc_inj_1.
    replace ((1 + Qc_of_Z (Z.of_nat (length l))) * a)
      with (a + Qc_of_Z (Z.of_nat (length l)) * a) by ring.
    replace ((1 + Qc_of_Z (Z.of_nat (length l))) * b)
      with (b + Qc_of_Z (Z.of_nat (length l)) * b) by ring.
    split; by apply Qcplus_le_compat.
Qed.

Lemma mean_bounds (a b : Qc) (l : list Qc) :
  l ≠ [] → (∀ x, x ∈ l → a ≤ x ≤ b) → ∃ m, mean l = Some m ∧ a ≤ m ≤ b.
Proof.
  intros Hne Hl. destruct (sum_Qc_bounds a b l Hl) as [H1 H2].
  destruct l as [|x l]; [done|].
  eexists. split; [reflexivity|].
  set (n := Qc_of_Z (Z.of_nat (length (x :: l)))) in *.
  assert (0 < n) as Hpos.
  { unfold n. rewrite <-Z2Qc_inj_0, <-Z2Qc_inj_lt. simpl. lia. }
  assert (n ≠ 0) as Hn0 by (by apply not_symmetry, Qclt_not_eq).
  assert (0 ≤ / n) as Hinv by (by apply Qclt_le_weak, Qcinv_pos).
  unfold Qcdiv. split.
  - replace a with (n * a * / n) by (by field).
    by apply Qcmult_le_mono_nonneg_r.
  - replace b with (n * b * / n) by (by field).
    by apply Qcmult_le_mono_nonneg_r.
Qed.

Lemma mean_delivery_days_bounds T lo hi :
  T ≠ [] →
  (∀ r, r ∈ T →
     (ship_date r + lo * NS_PER_DAY ≤ delivery_date r
      < ship_date r + (hi + 1) * NS_PER_DAY)%Z) →
  ∃ days, mean (Qc_of_Z <$> (delivery_days <$> T)) = Some days
          ∧ Qc_of_Z lo ≤ days ≤ Qc_of_Z hi.
Proof.
  intros Hne Hspan. apply mean_bounds; [by destruct T|].
  intros x (d & -> & (r & -> & Hr)%list_elem_of_fmap)%list_elem_of_fmap.
  rewrite <-!Z2Qc_inj_le. apply days_of_bounds.
  specialize (Hspan r Hr). lia.
Qed.

Local Close Scope Qc_scope.

(** X15: the delivery time averages lie between the fastest and the
    slowest delivery.  If every order of a table with at least one row was
    delivered at least [lo] and at most [hi] whole days after it was
    shipped, the "Avg Delivery Time (days)" tile of the KPI stage shows a
    number between [lo] and [hi], and so does every bar of the delivery
    time chart by product category, which has a number for every
    category.  With [lo = 0]: no average is negative when no order is
    delivered before it is shipped. *)
Theorem delivery_time_between_fastest_and_slowest h o p idx T lo hi :
  h !! p = Some (frame_of idx T) →
  T ≠ [] →
  (∀ r, r ∈ T →
     ship_date r + lo * NS_PER_DAY ≤ delivery_date r
     < ship_date r + (hi + 1) * NS_PER_DAY) →
  (∃ days,
     out (kpi_section p {| heap := h; out := o |}).2 !! (length o + 4)%nat
     = Some (EvMetric "Avg Delivery Time (days)" (MValue (Some days)))
     ∧ (Qc_of_Z lo ≤ days ≤ Qc_of_Z hi)%Qc)
  ∧ (∃ keys revenue profit_by_cat avgs,
       out (charts_section p {| heap := h; out := o |}).2 !! (length o + 5)%nat
       = Some (EvChart "Average Delivery Time by Product Category (days)"
                 [ ("product_category", CStr keys); ("revenue", CNum revenue);
                   ("profit", CNum profit_by_cat);
                   ("avg_delivery_days", CFloat avgs) ]
                 "product_category" ["avg_delivery_days"])
       ∧ length avgs = length keys
       ∧ ∀ x, x ∈ avgs →
           ∃ days, x = Some days ∧ (Qc_of_Z lo ≤ days ≤ Qc_of_Z hi)%Qc).
Proof.
  intros Hp Hne Hspan. split.
  - destruct (mean_delivery_days_bounds T lo hi Hne Hspan) as (days & Hdays & Hb).
    exists days. split; [|done].
    rewrite (kpi_section_run h o p idx T Hp). cbn [snd out].
    rewrite lookup_app_r, Nat.add_sub' by lia.
    unfold kpi_tiles. by rewrite Hdays.
  - eexists _, _, _, _. split; [|split].
    + rewrite (charts_section_run h o p idx T Hp). cbn [snd out].
      rewrite lookup_app_r, Nat.add_sub' by lia. reflexivity.
    + unfold grouped. by rewrite length_fmap.
    + intros x (k & rs & -> & Hrs & ->)%grouped_elem_of.
      apply mean_delivery_days_bounds; [done|].
      intros r [_ Hr]%list_elem_of_filter. by apply Hspan.
Qed.

Lemma delivery_time_between_fastest_and_slowest_witness :
  heap scenario_store !! 0%nat = Some (frame_of [0; 1; 2]%nat scenario)
  ∧ scenario ≠ []
  ∧ (∀ r, r ∈ scenario →
       ship_date r + 2 * NS_PER_DAY ≤ delivery_date r
       < ship_date r + (2 + 1) * NS_PER_DAY)
  ∧ (∃ days,
       out (kpi_section 0%nat {| heap := heap scenario_store; out := [] |}).2
         !! (length (@nil Event) + 4)%nat
       = Some (EvMetric "Avg Delivery Time (days)" (MValue (Some days)))
       ∧ (Qc_of_Z 2 ≤ days ≤ Qc_of_Z 2)%Qc)
  ∧ (∃ keys revenue profit_by_cat avgs,
       out (charts_section 0%nat {| heap := heap scenario_store; out := [] |}).2
         !! (length (@nil Event) + 5)%nat
       = Some (EvChart "Average Delivery Time by Product Category (days)"
                 [ ("product_category", CStr keys); ("revenue", CNum revenue);
                   ("profit", CNum profit_by_cat);
                   ("avg_delivery_days", CFloat avgs) ]
                 "product_category" ["avg_delivery_days"])
       ∧ length avgs = length keys
       ∧ ∀ x, x ∈ avgs →
           ∃ days, x = Some days ∧ (Qc_of_Z 2 ≤ days ≤ Qc_of_Z 2)%Qc).
Proof.
  assert (∀ r, r ∈ scenario →
            ship_date r + 2 * NS_PER_DAY ≤ delivery_date r
            < ship_date r + (2 + 1) * NS_PER_DAY) as Hspan.
  { intros r Hr. unfold scenario in Hr.
    repeat (apply elem_of_cons in Hr as [->|Hr]; [vm_compute; split; [discriminate|reflexivity]|]).
    by apply not_elem_of_nil in Hr. }
  split; [reflexivity|]. split; [discriminate|]. split; [exact Hspan|].
  exact (delivery_time_between_fastest_and_slowest (heap scenario_store) [] 0%nat
           [0; 1; 2]%nat scenario 2 2 eq_refl ltac:(discriminate) Hspan).
Defined.

(** ** What the sidebar offers *)

Lemma foldr_min_elem_of x l : foldr Z.min x l ∈ x :: l.
Proof.
  induction l as [|z l IH]; simpl; [by left|].
  destruct (Z.min_spec z (foldr Z.min x l)) as [[_ ->]|[_ ->]].
  - right. by left.
  - apply elem_of_cons in IH as [->|IH]; [by left|]. right. by right.
Qed.

Lemma foldr_max_elem_of x l : foldr Z.max x l ∈ x :: l.
Proof.
  induction l as [|z l IH]; simpl; [by left|].
  destruct (Z.max_spec z (foldr Z.max x l)) as [[_ ->]|[_ ->]].
  - apply elem_of_cons in IH as [->|IH]; [by left|]. right. by right.
  - right. by left.
Qed.

Lemma table_span_attained T :
  T ≠ [] →
  ∃ lo hi, table_span T = (Some lo, Some hi)
    ∧ (∀ r, r ∈ T → lo ≤ date_of (order_date r) ≤ hi)
    ∧ (∃ r, r ∈ T ∧ date_of (order_date r) = lo)
    ∧ (∃ r, r ∈ T ∧ date_of (order_date r) = hi).
Proof.
  intros Hne. destruct T as [|r0 T]; [done|].
  destruct (table_span_cons r0 T) as (lo & hi & Hspan & Hdays).
  exists lo, hi. do 2 (split; [done|]).
  unfold table_span, list_min, list_max in Hspan.
  rewrite fmap_cons in Hspan. simpl in Hspan. injection Hspan as <- <-.
  split.
  - pose proof (foldr_min_elem_of (order_date r0) (order_date <$> T)) as Hin.
    rewrite <-fmap_cons in Hin.
    apply list_elem_of_fmap in Hin as (r & Hr & Hin). exists r. by rewrite Hr.
  - pose proof (foldr_max_elem_of (order_date r0) (order_date <$> T)) as Hin.
    rewrite <-fmap_cons in Hin.
    apply list_elem_of_fmap in Hin as (r & Hr & Hin). exists r. by rewrite Hr.
Qed.

(** X16: what the sidebar offers is what the table holds.  For a table
    with at least one row, whatever is selected, the three selection
    boxes list the regions, the warehouses and the categories of the
    table: every value that some order has, each once, in ascending
    order; and the date widget is preset to the days of the earliest and
    of the latest order, so every order's day lies between its two ends. *)
Theorem sidebar_offers_what_the_table_holds h o p idx T w :
  h !! p = Some (frame_of idx T) →
  T ≠ [] →
  ∃ region_options warehouse_options category_options first_day last_day,
    out (sidebar_filters p w {| heap := h; out := o |}).2
    = o ++ [ EvMultiselect "Region" (CStr region_options);
             EvMultiselect "Warehouse" (CStr warehouse_options);
             EvMultiselect "Product Category" (CStr category_options);
             EvDateInput "Order Date Range" (Some first_day) (Some last_day) ]
    ∧ (StronglySorted String.le region_options ∧ NoDup region_options
       ∧ ∀ k, k ∈ region_options ↔ ∃ r, r ∈ T ∧ region r = k)
    ∧ (StronglySorted String.le warehouse_options ∧ NoDup warehouse_options
       ∧ ∀ k, k ∈ warehouse_options ↔ ∃ r, r ∈ T ∧ warehouse_id r = k)
    ∧ (StronglySorted String.le category_options ∧ NoDup category_options
       ∧ ∀ k, k ∈ category_options ↔ ∃ r, r ∈ T ∧ product_category r = k)
    ∧ (∀ r, r ∈ T → first_day ≤ date_of (order_date r) ≤ last_day)
    ∧ (∃ r, r ∈ T ∧ date_of (order_date r) = first_day)
    ∧ (∃ r, r ∈ T ∧ date_of (order_date r) = last_day).
Proof.
  intros Hp Hne.
  destruct (table_span_attained T Hne) as (lo & hi & Hspan & Hdays & Hlo & Hhi).
  eexists _, _, _, lo, hi. split.
  { rewrite (sidebar_filters_run h o p idx T w Hp). cbn [snd out].
    unfold sidebar_widgets. rewrite Hspan. reflexivity. }
  assert (∀ (key : Row → string) k,
            k ∈ sorted_unique String.le (key <$> T) ↔ ∃ r, r ∈ T ∧ key r = k)
    as Hoptions.
  { intros key k. rewrite elem_of_sorted_unique, list_elem_of_fmap.
    split; intros (r & ? & ?); by exists r. }
  repeat split;
    first [ by apply sorted_unique_ascending; apply _
          | apply NoDup_sorted_unique
          | by apply Hoptions
          | by apply Hdays
          | done ].
Qed.

Lemma sidebar_offers_what_the_table_holds_witness :
  heap scenario_store !! 0%nat = Some (frame_of [0; 1; 2]%nat scenario)
  ∧ scenario ≠ []
  ∧ ∃ region_options warehouse_options category_options first_day last_day,
      out (sidebar_filters 0%nat select_us
             {| heap := heap scenario_store; out := [] |}).2
      = [] ++ [ EvMultiselect "Region" (CStr region_options);
                EvMultiselect "Warehouse" (CStr warehouse_options);
                EvMultiselect "Product Category" (CStr category_options);
                EvDateInput "Order Date Range" (Some first_day) (Some last_day) ]
      ∧ (StronglySorted String.le region_options ∧ NoDup region_options
         ∧ ∀ k, k ∈ region_options ↔ ∃ r, r ∈ scenario ∧ region r = k)
      ∧ (StronglySorted String.le warehouse_options ∧ NoDup warehouse_options
         ∧ ∀ k, k ∈ warehouse_options ↔ ∃ r, r ∈ scenario ∧ warehouse_id r = k)
      ∧ (StronglySorted String.le category_options ∧ NoDup category_options
         ∧ ∀ k, k ∈ category_options ↔ ∃ r, r ∈ scenario ∧ product_category r = k)
      ∧ (∀ r, r ∈ scenario → first_day ≤ date_of (order_date r) ≤ last_day)
      ∧ (∃ r, r ∈ scenario ∧ date_of (order_date r) = first_day)
      ∧ (∃ r, r ∈ scenario ∧ date_of (order_date r) = last_day).
Proof.
  split; [reflexivity|]. split; [discriminate|].
  apply (sidebar_offers_what_the_table_holds (heap scenario_store) [] 0%nat
           [0; 1; 2]%nat scenario select_us); [reflexivity|discriminate].
Defined.
